(** * mockgen/reflect.go: model construction by reflection

    A shallow embedding of [Reflect] (the synthesize, build, execute, decode
    pipeline), of the [reflectProgram] template and of the probe program the
    template expands to, followed by the properties of the pipeline.

    Go strings and byte buffers are [string] (sequences of 8-bit characters).
    The operating system (temporary directories, files, child processes) is an
    explicit record of responses, [Env]; the file system is the finite set of
    the paths that exist.  Functions of Go's standard library and of the
    [model] package that the file only calls ([strconv.Quote], [filepath.Join],
    the gob wire format, [model.InterfaceFromInterfaceType], ...) are the
    fields of the class [Externals]. *)

From Stdlib Require Import String Ascii List Bool Arith Lia.
From Equations Require Import Equations.
From Equations.Prop Require Import Logic.
From stdpp Require Import base gmap strings.
Import ListNotations.

#[local] Arguments String.append (s1 s2)%_string_scope : simpl nomatch.
#[local] Set Warnings "-register-all".

(** ** Characters and strings *)

Definition nl : ascii := "010"%char.
Definition tab : ascii := "009"%char.
Definition dquote : ascii := "034"%char.
Definition slash : ascii := "/"%char.

Definition str (c : ascii) : string := String c EmptyString.

(** [s] between two double quotes: how the template text spells a Go string
    literal whose content needs no escape. *)
Definition quoted (s : string) : string := str dquote +:+ s +:+ str dquote.

(** The strings of a list, one after the other. *)
Definition join (ls : list string) : string := fold_right String.append EmptyString ls.

Fixpoint contains (c : ascii) (s : string) : bool :=
  match s with
  | EmptyString => false
  | String d r => Ascii.eqb d c || contains c r
  end.

(** [s] split at every [c], as strings.Split does: the pieces between the
    separators, the last one being what follows the last separator. *)
Fixpoint split_on (c : ascii) (s : string) : list string :=
  match s with
  | EmptyString => [EmptyString]
  | String d r =>
      if Ascii.eqb d c then EmptyString :: split_on c r
      else match split_on c r with
           | l :: ls => String d l :: ls
           | [] => [str d]
           end
  end.

(** The lines of a text file: every line followed by a newline. *)
Fixpoint unlines (ls : list string) : string :=
  match ls with
  | [] => EmptyString
  | l :: ls' => l +:+ String nl (unlines ls')
  end.

(** ** Errors *)

Inductive error : Type :=
| io_EOF                      (* io.EOF *)
| ExitError (status : nat)    (* *exec.ExitError: the child exited with this non-zero status *)
| OtherError (msg : string).  (* any other error value *)

(** ** bytes.Buffer.ReadString

    [ReadString delim buf] is (line, err, rest): the unread bytes up to and
    including the first [delim] and no error, or, when there is no [delim],
    all the unread bytes and [io.EOF]; [rest] is what stays unread. *)
Fixpoint ReadString (delim : ascii) (buf : string) : string * option error * string :=
  match buf with
  | EmptyString => (EmptyString, Some io_EOF, EmptyString)
  | String c r =>
      if Ascii.eqb c delim then (str c, None, r)
      else let '(line, err, rest) := ReadString delim r in (String c line, err, rest)
  end.

Lemma ReadString_shrinks delim buf line rest :
  ReadString delim buf = (line, None, rest) -> String.length rest < String.length buf.
Proof.
  revert line rest. induction buf as [|c r IH]; simpl; intros line rest H.
  - discriminate.
  - destruct (Ascii.eqb c delim).
    + inversion H; subst. lia.
    + destruct (ReadString delim r) as [[l e] b]. inversion H; subst.
      specialize (IH _ _ eq_refl). lia.
Qed.

(** ** The decoder's scan (reflect.go, lines 103 to 107) *)

Definition sentinel : string := "ENCODED_PKG".
Definition sentinel_line : string := sentinel +:+ str nl.

(** The loop [for err == nil && line != "ENCODED_PKG\n" { line, err =
    stdout.ReadString('\n') }] on the loop variables and the buffer.  Every
    iteration that goes on has consumed a newline, which is the measure. *)
Equations? for_loop (line : string) (err : option error) (buf : string)
  : string * option error * string
  by wf (match err with None => S (String.length buf) | Some _ => 0 end) lt :=
  for_loop line (Some e) buf := (line, Some e, buf);
  for_loop line None buf with String.eqb line sentinel_line := {
    | true := (line, None, buf);
    | false with inspect (ReadString nl buf) := {
        | exist _ (pair (pair l' e') b') H := for_loop l' e' b' } }.
Proof.
  destruct e'; [lia|]. apply ReadString_shrinks in H. lia.
Qed.

(** Lines 103 to 107: the first [ReadString], then the loop. *)
Definition scan (stdout : string) : string * option error * string :=
  let '(line, err, buf) := ReadString nl stdout in for_loop line err buf.

(** The newline-terminated lines of a stream and the sentinel among them, as
    the specification words it: the stream split at every newline, the last
    piece (what follows the last newline) left out. *)
Definition terminated_lines (s : string) : list string := removelast (split_on nl s).

Definition has_sentinel_line (s : string) : bool :=
  existsb (String.eqb sentinel) (terminated_lines s).

(** A diagnostic line: any text without a newline other than the sentinel. *)
Definition diagnostic_line (l : string) : bool :=
  negb (contains nl l) && negb (String.eqb l sentinel).

(** ** The intermediate model (package model)

    Only what reflect.go and the probe program touch: a package has a name and
    its interfaces in order, an interface has a name and its methods.  The
    type of methods is a parameter. *)

Record Interface (M : Type) : Type := mkInterface {
  Intf_Name : string;
  Intf_Methods : list M
}.
Arguments mkInterface {M} _ _.
Arguments Intf_Name {M} _.
Arguments Intf_Methods {M} _.

Record Package (M : Type) : Type := mkPackage {
  Pkg_Name : string;
  Pkg_Interfaces : list (Interface M)
}.
Arguments mkPackage {M} _ _.
Arguments Pkg_Name {M} _.
Arguments Pkg_Interfaces {M} _.

(** ** What reflect.go calls and does not define *)

Class Externals : Type := {
  (* model.Method *)
  Method : Type;
  (* reflect.Type *)
  RType : Type;
  (* the reflect.Type the probe obtains for a symbol (second argument) of the
     package imported from a path (first argument) *)
  reflect_TypeOf : string -> string -> RType;
  (* model.InterfaceFromInterfaceType *)
  InterfaceFromInterfaceType : RType -> error + Interface Method;
  (* gob.NewEncoder(w).Encode(pkg): the bytes written to w *)
  gob_Encode : Package Method -> error + string;
  (* the gob wire format: the value a non-empty input decodes to *)
  gob_decodeValue : string -> error + Package Method;
  (* strconv.Quote, which the verb %q of fmt applies to a string *)
  strconv_Quote : string -> string;
  (* filepath.Join and filepath.Base *)
  filepath_Join : list string -> string;
  filepath_Base : string -> string
}.

(** ** path.Base, which the probe program calls *)

Fixpoint strip_trailing (c : ascii) (s : string) : string :=
  match s with
  | EmptyString => EmptyString
  | String d r =>
      match strip_trailing c r with
      | EmptyString => if Ascii.eqb d c then EmptyString else str d
      | r' => String d r'
      end
  end.

Fixpoint after_last (c : ascii) (s : string) : string :=
  match s with
  | EmptyString => EmptyString
  | String d r =>
      if contains c r then after_last c r
      else if Ascii.eqb d c then r else String d r
  end.

(** path.Base: the empty path gives ".", trailing slashes are stripped, what
    follows the last slash is kept, and a path of slashes only gives "/". *)
Definition path_Base (path : string) : string :=
  match path with
  | EmptyString => "."
  | _ =>
      match after_last slash (strip_trailing slash path) with
      | EmptyString => "/"
      | base => base
      end
  end.

(** The last path component in the specification's words: the last of the
    non-empty pieces between slashes. *)
Definition nonempty (s : string) : bool :=
  match s with EmptyString => false | _ => true end.

Definition path_components (path : string) : list string :=
  List.filter nonempty (split_on slash path).

Definition last_component (path : string) : option string :=
  last (path_components path).

(** ** text/template, as far as [reflectProgram] uses it *)

Record reflectData : Type := mkReflectData {
  ImportPath : string;
  Symbols : list string
}.

(** The argument of an action: the cursor [.] or a field of it. *)
Inductive Field : Type :=
| Dot
| DotField (name : string).

Inductive Node : Type :=
| TextNode (text : string)                     (* text between actions, copied as it is *)
| PrintfQ (arg : Field)                        (* the action printf "%q" arg *)
| Print (arg : Field)                          (* the action that prints arg *)
| RangeNode (pipe : Field) (body : list Node). (* range pipe ... end *)

Inductive Value : Type :=
| VData (d : reflectData)
| VString (s : string)
| VStrings (l : list string).

(** The text of [reflectProgram] between its actions (reflect.go, lines 141
    to 189), line by line. *)
Definition tabs (n : nat) : string := join (repeat (str tab) n).

Definition ln (depth : nat) (text : string) : string := tabs depth +:+ text +:+ str nl.

Definition text_imports : string :=
  str nl +:+
  ln 0 "package main" +:+
  ln 0 "" +:+
  ln 0 "import (" +:+
  ln 1 (quoted "encoding/gob") +:+
  ln 1 (quoted "fmt") +:+
  ln 1 (quoted "os") +:+
  ln 1 (quoted "path") +:+
  ln 1 (quoted "reflect") +:+
  ln 0 "" +:+
  ln 1 (quoted "github.com/juno-lab/mock/mockgen/model") +:+
  ln 0 "".

(** The local alias under which the probe imports the target package. *)
Definition text_alias : string := tabs 1 +:+ "pkg_ ".

Definition text_head : string := text_imports +:+ text_alias.

Definition text_table : string :=
  ln 0 ")" +:+
  ln 0 "" +:+
  ln 0 "func main() {" +:+
  ln 1 "its := []struct{" +:+
  ln 2 "sym string" +:+
  ln 2 "typ reflect.Type" +:+
  ln 1 "}{" +:+
  tabs 2.

Definition text_its : string := str nl +:+ text_table.

Definition text_entry_open : string := str nl +:+ tabs 2 +:+ "{ ".
Definition text_entry_type : string := ", reflect.TypeOf((*pkg_.".
Definition text_entry_close : string := ")(nil)).Elem()}," +:+ str nl +:+ tabs 2.

Definition text_pkg : string :=
  str nl +:+
  ln 1 "}" +:+
  ln 1 "pkg := &model.Package{" +:+
  ln 2 "// NOTE: This behaves contrary to documented behaviour if the" +:+
  ln 2 "// package name is not the final component of the import path." +:+
  ln 2 "// The reflect package doesn't expose the package name, though." +:+
  tabs 2 +:+ "Name: path.Base(".

Definition text_tail : string :=
  ln 0 ")," +:+
  ln 1 "}" +:+
  ln 0 "" +:+
  ln 1 "for _, it := range its {" +:+
  ln 2 "intf, err := model.InterfaceFromInterfaceType(it.typ)" +:+
  ln 2 "if err != nil {" +:+
  ln 3 ("fmt.Fprintf(os.Stderr, " +:+ quoted "Reflection: %v\n" +:+ ", err)") +:+
  ln 3 "os.Exit(1)" +:+
  ln 2 "}" +:+
  ln 2 "intf.Name = it.sym" +:+
  ln 2 "pkg.Interfaces = append(pkg.Interfaces, intf)" +:+
  ln 1 "}" +:+
  ln 0 "" +:+
  ln 1 ("fmt.Println(" +:+ quoted "\nENCODED_PKG" +:+ ")") +:+
  ln 0 "" +:+
  ln 1 "if err := gob.NewEncoder(os.Stdout).Encode(pkg); err != nil {" +:+
  ln 2 ("fmt.Fprintf(os.Stderr, " +:+ quoted "gob encode: %v\n" +:+ ", err)") +:+
  ln 2 "os.Exit(1)" +:+
  ln 1 "}" +:+
  ln 0 "}".

(** The parsed template: [template.Must(template.New("program").Parse(...))]. *)
Definition reflectProgram : list Node :=
  [ TextNode text_head;
    PrintfQ (DotField "ImportPath");
    TextNode text_its;
    RangeNode (DotField "Symbols")
      [ TextNode text_entry_open;
        PrintfQ Dot;
        TextNode text_entry_type;
        Print Dot;
        TextNode text_entry_close ];
    TextNode text_pkg;
    PrintfQ (DotField "ImportPath");
    TextNode text_tail ].

(** A field of the cursor.  Only a [reflectData] has fields. *)
Definition evalField (f : Field) (dot : Value) : error + Value :=
  match f with
  | Dot => inr dot
  | DotField name =>
      match dot with
      | VData d =>
          if String.eqb name "ImportPath" then inr (VString (ImportPath d))
          else if String.eqb name "Symbols" then inr (VStrings (Symbols d))
          else inl (OtherError ("can't evaluate field " +:+ name))
      | _ => inl (OtherError ("can't evaluate field " +:+ name))
      end
  end.

(** The outputs of consecutive pieces, up to the first error. *)
Definition append_results (a b : error + string) : error + string :=
  match a with
  | inl e => inl e
  | inr x => match b with inl e => inl e | inr y => inr (x +:+ y) end
  end.

Definition concat_results (l : list (error + string)) : error + string :=
  fold_right append_results (inr EmptyString) l.

(** An instance to run the model on examples: names and paths that need no
    escape, slash-separated file paths, and a wire format that carries the
    name of the package only. *)
Definition sample_externals : Externals := {|
  Method := string;
  RType := string;
  reflect_TypeOf := fun _ sym => sym;
  InterfaceFromInterfaceType := fun typ => inr (mkInterface typ []);
  gob_Encode := fun pkg => inr (Pkg_Name pkg);
  gob_decodeValue := fun input => inr (mkPackage input []);
  strconv_Quote := quoted;
  filepath_Join := String.concat "/";
  filepath_Base := path_Base
|}.

Section Mockgen.

Context `{Ext : Externals}.

(** The output of a node at cursor [dot].  [printf "%q"] and the printing
    action are modelled at strings, the one operand type [reflectProgram]
    gives them, and [range] at lists of strings; other operands are errors
    here. *)
Fixpoint walk (dot : Value) (n : Node) {struct n} : error + string :=
  match n with
  | TextNode text => inr text
  | PrintfQ arg =>
      match evalField arg dot with
      | inl e => inl e
      | inr (VString s) => inr (strconv_Quote s)
      | inr _ => inl (OtherError "printf: operand is not a string")
      end
  | Print arg =>
      match evalField arg dot with
      | inl e => inl e
      | inr (VString s) => inr s
      | inr _ => inl (OtherError "print: operand is not a string")
      end
  | RangeNode pipe body =>
      match evalField pipe dot with
      | inl e => inl e
      | inr (VStrings l) =>
          concat_results
            (map (fun elem => concat_results (map (walk (VString elem)) body)) l)
      | inr _ => inl (OtherError "range can't iterate over the operand")
      end
  end.

Definition walkList (dot : Value) (ns : list Node) : error + string :=
  concat_results (map (walk dot) ns).

(** [t.Execute(&program, &data)]: the bytes written to the buffer, or the
    error. *)
Definition Execute (t : list Node) (data : reflectData) : error + string :=
  walkList (VData data) t.

(** One entry of the probe's table [its], as [reflectProgram] spells it for a
    symbol, and the text around the entries. *)
Definition extraction_entry (sym : string) : string :=
  text_entry_open +:+ strconv_Quote sym +:+ text_entry_type +:+ sym +:+ text_entry_close.

Definition import_line (importPath : string) : string :=
  text_alias +:+ strconv_Quote importPath +:+ str nl.

(** The rest of [main], after the table. *)
Definition text_main (importPath : string) : string :=
  text_pkg +:+ strconv_Quote importPath +:+ text_tail.

Definition program_text (importPath : string) (symbols : list string) : string :=
  text_imports +:+ import_line importPath +:+ text_table +:+
  join (map extraction_entry symbols) +:+
  text_main importPath.

(** ** The probe program (the Go program [reflectProgram] expands to)

    The literals the template writes with [printf "%q"] denote the strings
    they were made from, so the probe is a function of the template's data. *)

(** The loop over [its]: the interfaces collected so far, then one more per
    entry, named after the symbol; the first error ends the probe. *)
Fixpoint probe_loop (its : list (string * RType)) (interfaces : list (Interface Method))
  : error + list (Interface Method) :=
  match its with
  | [] => inr interfaces
  | (sym, typ) :: its' =>
      match InterfaceFromInterfaceType typ with
      | inl e => inl e
      | inr intf =>
          probe_loop its' (interfaces ++ [mkInterface sym (Intf_Methods intf)])
      end
  end.

(** The package the probe builds, or the error that makes it exit. *)
Definition probe_package (importPath : string) (symbols : list string)
  : error + Package Method :=
  let its := map (fun sym => (sym, reflect_TypeOf importPath sym)) symbols in
  let pkg := mkPackage (path_Base importPath) [] in
  match probe_loop its (Pkg_Interfaces pkg) with
  | inl e => inl e
  | inr interfaces => inr (mkPackage (Pkg_Name pkg) interfaces)
  end.

(** [main]: the probe's standard output and exit status. *)
Definition probe_main (importPath : string) (symbols : list string) : string * nat :=
  match probe_package importPath symbols with
  | inl _ => (EmptyString, 1)
  | inr pkg =>
      let out := str nl +:+ sentinel_line in
      match gob_Encode pkg with
      | inl _ => (out, 1)
      | inr bytes => (out +:+ bytes, 0)
      end
  end.

(** ** gob.NewDecoder(r).Decode

    encoding/gob documents: if the input is at EOF, Decode returns io.EOF.
    Any other input is left to the wire format. *)
Definition gob_Decode (input : string) : error + Package Method :=
  match input with
  | EmptyString => inl io_EOF
  | _ => gob_decodeValue input
  end.

(** ** The process and its environment *)

(** What [Reflect] does to the outside world, in order, and (the last two) the
    two steps of the decoder, which happen in memory. *)
Inductive Event : Type :=
| EvTempDir (dir pattern : string)                     (* ioutil.TempDir *)
| EvRender (importPath : string) (symbols : list string) (* reflectProgram.Execute *)
| EvStdoutWrite (bytes : string)                       (* bytes written to os.Stdout *)
| EvExit (code : nat)                                  (* os.Exit *)
| EvWriteFile (path data : string)                     (* ioutil.WriteFile *)
| EvRun (argv : list string)                           (* exec.Command(argv...).Run() *)
| EvRemove (path : string)                             (* os.Remove *)
| EvRemoveAll (path : string)                          (* os.RemoveAll *)
| EvScan (stdout : string)                             (* the scan for the sentinel starts *)
| EvGobDecode (input : string).                        (* gob Decode is called on these bytes *)

(** How [cmd.Run()] went: the child ran, wrote [out] to its standard output
    and exited with [status]; or the command could not be started or its
    output could not be copied. *)
Inductive ExecResult : Type :=
| Finished (out : string) (status : nat)
| RunFailed (e : error).

(** The flags and the responses of the operating system to one invocation.
    A child process may change the file system. *)
Record Env : Type := mkEnv {
  progOnly : bool;                                       (* -prog_only *)
  execOnly : string;                                     (* -exec_only *)
  TempDir_result : string -> string -> error + string;   (* the directory created *)
  WriteFile_result : string -> string -> option error;
  Run_result : list string -> gset string -> ExecResult * gset string
}.

(** A call registered by [defer]. *)
Inductive Deferred : Type :=
| defer_RemoveAll (path : string)
| defer_Remove (path : string).

(** The state of a call of [Reflect]: the paths that exist, the events so far,
    and the deferred calls, the latest first. *)
Record Frame : Type := mkFrame {
  fs : gset string;
  trace : list Event;
  deferred : list Deferred
}.

(** How a computation inside [Reflect] ends: with a value, with an error that
    [Reflect] returns at once ([return nil, err]), or with the process gone
    ([os.Exit]). *)
Inductive outcome (A : Type) : Type :=
| Returned (a : A)
| Failed (e : error)
| Exited (code : nat).
Arguments Returned {A} _.
Arguments Failed {A} _.
Arguments Exited {A} _.

Definition M (A : Type) : Type := Frame -> outcome A * Frame.

Definition ret {A : Type} (a : A) : M A := fun fr => (Returned a, fr).

Definition bind {A B : Type} (m : M A) (k : A -> M B) : M B :=
  fun fr =>
    match m fr with
    | (Returned a, fr') => k a fr'
    | (Failed e, fr') => (Failed e, fr')
    | (Exited c, fr') => (Exited c, fr')
    end.

Notation "x <- m ;; k" := (bind m (fun x => k))
  (at level 100, m at next level, right associativity).
Notation "m ;;; k" := (bind m (fun _ => k))
  (at level 100, right associativity).

Definition fail {A : Type} (e : error) : M A := fun fr => (Failed e, fr).

Definition lift {A : Type} (r : error + A) : M A :=
  match r with inl e => fail e | inr a => ret a end.

(** The outcome of [return &pkg, nil] or [return nil, err]. *)
Definition outcome_of {A : Type} (r : error + A) : outcome A :=
  match r with inl e => Failed e | inr a => Returned a end.

Definition log (e : Event) (fr : Frame) : Frame :=
  mkFrame (fs fr) (trace fr ++ [e]) (deferred fr).

Definition set_fs (paths : gset string) (fr : Frame) : Frame :=
  mkFrame paths (trace fr) (deferred fr).

Definition emit (e : Event) : M unit := fun fr => (Returned tt, log e fr).

Definition defer (d : Deferred) : M unit :=
  fun fr => (Returned tt, mkFrame (fs fr) (trace fr) (d :: deferred fr)).

(** Path names. Two names denote the same file when they agree after the
    lexical cleaning of filepath.Clean: repeated and trailing slashes and the
    elements "." are dropped, and an element ".." cancels the element before
    it (symbolic links apart). So ./d, d and d/ are one directory, and d/f
    lies in ./d. A name is kept as whether it is rooted and its cleaned
    elements; a relative and a rooted name are told apart. *)
Definition is_rooted (path : string) : bool :=
  match path with
  | EmptyString => false
  | String c _ => Ascii.eqb c slash
  end.

(** One element more on the elements kept so far, the last one first. *)
Definition clean_step (rooted : bool) (kept : list string) (c : string) : list string :=
  if String.eqb c "." then kept
  else if String.eqb c ".." then
    match kept with
    | top :: rest => if String.eqb top ".." then c :: kept else rest
    | [] => if rooted then [] else [c]
    end
  else c :: kept.

Definition clean_elements (rooted : bool) (elements : list string) : list string :=
  rev (fold_left (clean_step rooted) elements []).

Definition path_parts (path : string) : bool * list string :=
  (is_rooted path, clean_elements (is_rooted path) (path_components path)).

(** filepath.Clean (with the separator /). *)
Definition Clean (path : string) : string :=
  match path_parts path with
  | (false, []) => "."
  | (false, kept) => String.concat "/" kept
  | (true, kept) => "/" +:+ String.concat "/" kept
  end.

(** What is left of [l] after its prefix [pre], if [pre] is a prefix. *)
Fixpoint strip_elements (pre l : list string) : option (list string) :=
  match pre, l with
  | [], rest => Some rest
  | x :: pre', y :: l' => if String.eqb x y then strip_elements pre' l' else None
  | _ :: _, [] => None
  end.

(** [path] is [dir] or lies below it: the cleaned elements of [dir] start
    those of [path], and what follows does not lead out again. *)
Definition within (dir path : string) : bool :=
  let '(rooted_dir, elements_dir) := path_parts dir in
  let '(rooted_path, elements_path) := path_parts path in
  Bool.eqb rooted_dir rooted_path &&
  match strip_elements elements_dir elements_path with
  | Some [] => true
  | Some (c :: _) => negb (String.eqb c "..")
  | None => false
  end.

(** os.RemoveAll: the path and everything below it are gone. *)
Definition os_RemoveAll (path : string) (fr : Frame) : Frame :=
  log (EvRemoveAll path) (set_fs (filter (fun p => within path p = false) (fs fr)) fr).

(** os.Remove: a file or an empty directory is gone; a directory with
    entries stays. *)
Definition os_Remove (path : string) (fr : Frame) : Frame :=
  log (EvRemove path)
    (if existsb (fun p => within path p && negb (within p path)) (elements (fs fr))
     then fr
     else set_fs (filter (fun p => within path p = false) (fs fr)) fr).

Definition run_deferred (fr : Frame) (d : Deferred) : Frame :=
  match d with
  | defer_RemoveAll path => os_RemoveAll path fr
  | defer_Remove path => os_Remove path fr
  end.

(** strings.Trim(s, "\n") *)
Fixpoint trim_left (c : ascii) (s : string) : string :=
  match s with
  | EmptyString => EmptyString
  | String d r => if Ascii.eqb d c then trim_left c r else s
  end.

Definition Trim (c : ascii) (s : string) : string := strip_trailing c (trim_left c s).

(** The end of a call: when the function returns, its deferred calls run, the
    latest first; when the process has exited, none does. *)
Definition return_from (fr : Frame) : Frame :=
  fold_left run_deferred (deferred fr) (mkFrame (fs fr) (trace fr) []).

Definition finish {A : Type} (r : outcome A * Frame) : outcome A * Frame :=
  match r with
  | (Exited code, fr) => (Exited code, fr)
  | (result, fr) => (result, return_from fr)
  end.

Definition cleanup_event (d : Deferred) : Event :=
  match d with
  | defer_RemoveAll path => EvRemoveAll path
  | defer_Remove path => EvRemove path
  end.

Section Pipeline.

Variable env : Env.

Definition ioutil_TempDir (dir pattern : string) : M string :=
  fun fr =>
    let fr' := log (EvTempDir dir pattern) fr in
    match TempDir_result env dir pattern with
    | inl e => (Failed e, fr')
    | inr name => (Returned name, set_fs ({[name]} ∪ fs fr') fr')
    end.

Definition ioutil_WriteFile (path data : string) : M unit :=
  fun fr =>
    let fr' := log (EvWriteFile path data) fr in
    match WriteFile_result env path data with
    | Some e => (Failed e, fr')
    | None => (Returned tt, set_fs ({[path]} ∪ fs fr') fr')
    end.

(** [cmd.Run()] with the child's standard output captured in a buffer: the
    buffer when the child exits with status 0, the error otherwise. *)
Definition Run_captured (argv : list string) : M string :=
  fun fr =>
    let '(r, paths) := Run_result env argv (fs fr) in
    let fr' := set_fs paths (log (EvRun argv) fr) in
    match r with
    | RunFailed e => (Failed e, fr')
    | Finished out 0 => (Returned out, fr')
    | Finished out (S n) => (Failed (ExitError (S n)), fr')
    end.

(** [cmd.Run()] with [cmd.Stdout = os.Stdout]. *)
Definition Run_passed_through (argv : list string) : M unit :=
  fun fr =>
    let '(r, paths) := Run_result env argv (fs fr) in
    let fr' := set_fs paths (log (EvRun argv) fr) in
    match r with
    | RunFailed e => (Failed e, fr')
    | Finished out 0 => (Returned tt, log (EvStdoutWrite out) fr')
    | Finished out (S n) => (Failed (ExitError (S n)), log (EvStdoutWrite out) fr')
    end.

Definition os_Exit {A : Type} (code : nat) : M A :=
  fun fr => (Exited code, log (EvExit code) fr).

(** reflect.go, lines 121 to 131 *)
Definition getGbInfo (param : string) : M string :=
  stdout <- Run_captured ["gb"; "info"; param] ;;
  ret (Trim nl stdout).

(** ** Reflect (reflect.go, lines 39 to 119) *)

(** Lines 45 to 64: the scoped directory and the program source. With
    [-prog_only] the source goes to the standard output and the process
    exits. *)
Definition synthesize (importPath : string) (symbols : list string)
  : M (string * string) :=
  (* We use TempDir instead of TempFile so we can control the filename. *)
  tmpDir <- ioutil_TempDir "." "gomock_reflect_" ;;
  defer (defer_RemoveAll tmpDir) ;;;
  (* Generate program. *)
  let data := mkReflectData importPath symbols in
  emit (EvRender importPath symbols) ;;;
  program <- lift (Execute reflectProgram data) ;;
  (if progOnly env
   then emit (EvStdoutWrite program) ;;; os_Exit 0
   else ret tt) ;;;
  ret (tmpDir, program).

(** Lines 65 to 91: the source written to the directory and built with gb;
    the path of the binary. *)
Definition compile (tmpDir program : string) : M string :=
  let progSource := "prog.go" in
  ioutil_WriteFile (filepath_Join [tmpDir; progSource]) program ;;;
  gbProjectDir <- getGbInfo "GB_PROJECT_DIR" ;;
  gbBinSuffix <- getGbInfo "GB_BIN_SUFFIX" ;;
  let tmpDirName := filepath_Base tmpDir in
  let progPath := filepath_Join [gbProjectDir; "bin"; tmpDirName +:+ gbBinSuffix] in
  defer (defer_Remove progPath) ;;;
  (* Build the program. *)
  Run_passed_through ["gb"; "build"; tmpDir] ;;;
  ret progPath.

(** Lines 43 to 92, the branch taken when [-exec_only] is empty. *)
Definition build (importPath : string) (symbols : list string) : M string :=
  source <- synthesize importPath symbols ;;
  compile (fst source) (snd source).

(** Lines 42 to 92: the probe to run. *)
Definition resolve (importPath : string) (symbols : list string) : M string :=
  if String.eqb (execOnly env) EmptyString
  then build importPath symbols
  else ret (execOnly env).

(** Lines 103 to 118: the decoder, on the captured output. *)
Definition decode (stdout : string) : M (Package Method) :=
  emit (EvScan stdout) ;;;
  let '(line, err, rest) := scan stdout in
  match err with
  | Some e => fail e
  | None =>
      (* Process output. *)
      emit (EvGobDecode rest) ;;;
      lift (gob_Decode rest)
  end.

(** Lines 94 to 118: run the probe, decode what it wrote. *)
Definition run_and_decode (progPath : string) : M (Package Method) :=
  stdout <- Run_captured [progPath] ;;
  decode stdout.

Definition Reflect_body (importPath : string) (symbols : list string)
  : M (Package Method) :=
  progPath <- resolve importPath symbols ;;
  run_and_decode progPath.

(** A call of [Reflect] in a file system [paths]: the body, then, unless the
    process has exited, the deferred calls, the latest first. *)
Definition Reflect (importPath : string) (symbols : list string) (paths : gset string)
  : outcome (Package Method) * Frame :=
  finish (Reflect_body importPath symbols (mkFrame paths [] [])).

End Pipeline.

(** The same environment with another value of [-prog_only]. *)
Definition with_progOnly (b : bool) (env : Env) : Env :=
  mkEnv b (execOnly env) (TempDir_result env) (WriteFile_result env) (Run_result env).

(** Example environments.  A pre-built probe at [path] that writes [out] and
    exits with [status]; and a working toolchain, where the directory created
    is gomock_reflect_1, gb reports /project and no suffix, the build leaves
    the binary in /project/bin, and the probe behaves as [probe]. *)
Definition prebuilt_env (path out : string) (status : nat) : Env :=
  mkEnv false path
    (fun _ _ => inl (OtherError "no temporary directory"))
    (fun _ _ => None)
    (fun _ paths => (Finished out status, paths)).

Definition toolchain_env (print_only : bool) (probe : string * nat) : Env :=
  mkEnv print_only EmptyString
    (fun _ pattern => inr (pattern +:+ "1"))
    (fun _ _ => None)
    (fun argv paths =>
       match argv with
       | ["gb"; "info"; "GB_PROJECT_DIR"] => (Finished ("/project" +:+ str nl) 0, paths)
       | ["gb"; "info"; "GB_BIN_SUFFIX"] => (Finished (str nl) 0, paths)
       | ["gb"; "build"; dir] => (Finished EmptyString 0, {["/project/bin/" +:+ dir]} ∪ paths)
       | _ => (Finished (fst probe) (snd probe), paths)
       end).

(** What the process wrote to its standard output, from the events. *)
Definition stdout_of (events : list Event) : string :=
  join
    (flat_map (fun e => match e with EvStdoutWrite b => [b] | _ => [] end) events).

(** The program source a call synthesized, from the events: the bytes it
    printed or wrote to a file right after rendering. *)
Fixpoint synthesized (events : list Event) : option string :=
  match events with
  | [] => None
  | EvRender _ _ :: EvStdoutWrite program :: _ => Some program
  | EvRender _ _ :: EvWriteFile _ program :: _ => Some program
  | _ :: events' => synthesized events'
  end.

(** The events of the decoder. *)
Definition decoder_event (e : Event) : bool :=
  match e with
  | EvScan _ | EvGobDecode _ => true
  | _ => false
  end.

(** * Properties *)

(** ** Strings *)

Lemma append_assoc (a b c : string) : (a +:+ b) +:+ c = a +:+ (b +:+ c).
Proof. induction a as [|x a IH]; simpl; [reflexivity | now rewrite IH]. Qed.

Lemma append_nil_r (a : string) : a +:+ EmptyString = a.
Proof. induction a as [|x a IH]; simpl; [reflexivity | now rewrite IH]. Qed.

Lemma length_append (a b : string) :
  String.length (a +:+ b) = String.length a + String.length b.
Proof. induction a as [|x a IH]; simpl; [reflexivity | now rewrite IH]. Qed.

Lemma append_inj_r (a b c : string) : a +:+ c = b +:+ c -> a = b.
Proof.
  revert b. induction a as [|x a IH]; intros [|y b] H; simpl in H.
  - reflexivity.
  - apply (f_equal String.length) in H. simpl in H.
    rewrite length_append in H. lia.
  - apply (f_equal String.length) in H. simpl in H.
    rewrite length_append in H. lia.
  - inversion H; subst. f_equal. now apply IH.
Qed.

Lemma contains_append c a b : contains c (a +:+ b) = contains c a || contains c b.
Proof.
  induction a as [|x a IH]; simpl; [reflexivity|].
  rewrite IH. now rewrite orb_assoc.
Qed.

(** ** bytes.Buffer.ReadString and the scan *)

Lemma ReadString_line c l rest :
  contains c l = false ->
  ReadString c (l +:+ String c rest) = (l +:+ str c, None, rest).
Proof.
  induction l as [|x l IH]; simpl; intros H.
  - now rewrite Ascii.eqb_refl.
  - apply orb_false_iff in H as [Hx Hl]. rewrite Hx, (IH Hl). reflexivity.
Qed.

Lemma ReadString_eof c l :
  contains c l = false -> ReadString c l = (l, Some io_EOF, EmptyString).
Proof.
  induction l as [|x l IH]; simpl; intros H; [reflexivity|].
  apply orb_false_iff in H as [Hx Hl]. rewrite Hx, (IH Hl). reflexivity.
Qed.

(** Every stream is a line without newline at its end, or starts with a
    newline-terminated line. *)
Lemma first_line c s :
  contains c s = false \/
  exists l rest, s = l +:+ String c rest /\ contains c l = false.
Proof.
  induction s as [|x s IH]; [now left|].
  simpl. destruct (Ascii.eqb x c) eqn:Hx.
  - right. exists EmptyString, s. apply Ascii.eqb_eq in Hx. now subst.
  - destruct IH as [H | (l & rest & -> & Hl)]; [now left|].
    right. exists (String x l), rest. simpl. now rewrite Hx, Hl.
Qed.

(** One turn of the loop, as an equation. *)
Lemma for_loop_go line buf :
  for_loop line None buf =
  if String.eqb line sentinel_line then (line, None, buf) else scan buf.
Proof.
  simp for_loop. destruct (String.eqb line sentinel_line); simpl; [reflexivity|].
  unfold scan. destruct (ReadString nl buf) as [[l e] b]. reflexivity.
Qed.

Lemma scan_hit rest : scan (sentinel_line +:+ rest) = (sentinel_line, None, rest).
Proof.
  unfold scan, sentinel_line. rewrite append_assoc. simpl (str nl +:+ rest).
  rewrite ReadString_line by reflexivity.
  rewrite for_loop_go. now rewrite String.eqb_refl.
Qed.

Lemma scan_skip l rest :
  diagnostic_line l = true -> scan (l +:+ String nl rest) = scan rest.
Proof.
  unfold diagnostic_line. intros H. apply andb_true_iff in H as [Hnl Hne].
  apply negb_true_iff in Hnl, Hne.
  unfold scan at 1. rewrite ReadString_line by assumption.
  rewrite for_loop_go.
  destruct (String.eqb (l +:+ str nl) sentinel_line) eqn:E; [|reflexivity].
  apply String.eqb_eq in E. apply append_inj_r in E.
  apply String.eqb_neq in Hne. contradiction.
Qed.

Lemma scan_eof l : contains nl l = false -> scan l = (l, Some io_EOF, EmptyString).
Proof.
  intros H. unfold scan. rewrite ReadString_eof by assumption. now simp for_loop.
Qed.

Lemma scan_diagnostics diag s :
  forallb diagnostic_line diag = true -> scan (unlines diag +:+ s) = scan s.
Proof.
  induction diag as [|l diag IH]; simpl; intros H; [reflexivity|].
  apply andb_true_iff in H as [Hl Hd].
  rewrite append_assoc. simpl. rewrite scan_skip by assumption. now apply IH.
Qed.

Lemma split_on_line c l rest :
  contains c l = false -> split_on c (l +:+ String c rest) = l :: split_on c rest.
Proof.
  induction l as [|x l IH]; simpl; intros H.
  - now rewrite Ascii.eqb_refl.
  - apply orb_false_iff in H as [Hx Hl]. now rewrite Hx, (IH Hl).
Qed.

Lemma split_on_not_nil c s : split_on c s <> [].
Proof.
  induction s as [|x s IH]; simpl; [discriminate|].
  destruct (Ascii.eqb x c); [discriminate|].
  destruct (split_on c s); [contradiction | discriminate].
Qed.

Lemma terminated_lines_line l rest :
  contains nl l = false ->
  terminated_lines (l +:+ String nl rest) = l :: terminated_lines rest.
Proof.
  intros H. unfold terminated_lines. rewrite split_on_line by assumption.
  simpl. destruct (split_on nl rest) eqn:E; [|reflexivity].
  now apply split_on_not_nil in E.
Qed.

(** Without a sentinel line the scan ends at the end of the stream. *)
Lemma scan_no_sentinel s :
  has_sentinel_line s = false ->
  exists line, scan s = (line, Some io_EOF, EmptyString).
Proof.
  remember (String.length s) as n eqn:Hn. revert s Hn.
  induction n as [n IH] using lt_wf_ind. intros s Hn Hs.
  destruct (first_line nl s) as [H | (l & rest & -> & Hl)].
  - exists s. now apply scan_eof.
  - unfold has_sentinel_line in Hs. rewrite terminated_lines_line in Hs by assumption.
    cbn [existsb] in Hs. apply orb_false_iff in Hs as [Hne Hrest].
    rewrite scan_skip.
    + apply (IH (String.length rest)); [|reflexivity|exact Hrest].
      subst n. rewrite length_append. simpl. lia.
    + unfold diagnostic_line. rewrite Hl. simpl.
      rewrite String.eqb_sym. now rewrite Hne.
Qed.

(** ** The monad and the end of a call *)

Lemma lift_outcome {A : Type} (r : error + A) fr : lift r fr = (outcome_of r, fr).
Proof. now destruct r. Qed.

Lemma trace_run_deferred ds fr :
  trace (fold_left run_deferred ds fr) = trace fr ++ map cleanup_event ds.
Proof.
  revert fr. induction ds as [|d ds IH]; intros fr; simpl.
  - now rewrite app_nil_r.
  - rewrite IH. destruct d; simpl; [|destruct (existsb _ _)]; simpl;
      now rewrite <- app_assoc.
Qed.

Lemma trace_return_from fr :
  trace (return_from fr) = trace fr ++ map cleanup_event (deferred fr).
Proof. unfold return_from. now rewrite trace_run_deferred. Qed.

Lemma finish_outcome {A : Type} (r : outcome A * Frame) : fst (finish r) = fst r.
Proof. now destruct r as [[a|e|c] fr]. Qed.

Lemma finish_Failed {A : Type} e fr :
  finish (A := A) (Failed e, fr) = (Failed e, return_from fr).
Proof. reflexivity. Qed.

Lemma finish_outcome_of {A : Type} (r : error + A) fr :
  finish (outcome_of r, fr) = (outcome_of r, return_from fr).
Proof. now destruct r. Qed.

(** ** Running the probe and decoding its output *)

Lemma Reflect_resolved env importPath symbols paths progPath fr :
  resolve env importPath symbols (mkFrame paths [] []) = (Returned progPath, fr) ->
  Reflect env importPath symbols paths = finish (run_and_decode env progPath fr).
Proof.
  intros H. unfold Reflect, Reflect_body, bind. now rewrite H.
Qed.

Lemma run_and_decode_zero env progPath fr out paths' :
  Run_result env [progPath] (fs fr) = (Finished out 0, paths') ->
  run_and_decode env progPath fr = decode out (set_fs paths' (log (EvRun [progPath]) fr)).
Proof.
  intros H. unfold run_and_decode, bind, Run_captured. now rewrite H.
Qed.

Lemma run_and_decode_nonzero env progPath fr out n paths' :
  Run_result env [progPath] (fs fr) = (Finished out (S n), paths') ->
  run_and_decode env progPath fr =
  (Failed (ExitError (S n)), set_fs paths' (log (EvRun [progPath]) fr)).
Proof.
  intros H. unfold run_and_decode, bind, Run_captured. now rewrite H.
Qed.

Lemma decode_found diag payload fr :
  forallb diagnostic_line diag = true ->
  let stdout := unlines diag +:+ sentinel_line +:+ payload in
  decode stdout fr =
  (outcome_of (gob_Decode payload), log (EvGobDecode payload) (log (EvScan stdout) fr)).
Proof.
  intros H stdout. unfold decode, bind, emit. subst stdout.
  rewrite scan_diagnostics by assumption. rewrite scan_hit.
  now rewrite lift_outcome.
Qed.

Lemma decode_stream_end stdout fr line :
  scan stdout = (line, Some io_EOF, EmptyString) ->
  decode stdout fr = (Failed io_EOF, log (EvScan stdout) fr).
Proof.
  intros H. unfold decode, bind, emit. now rewrite H.
Qed.

(** C1. Whatever diagnostic lines the probe writes first, and however many,
    the scan drops them up to and including the first line that is exactly
    ENCODED_PKG; gob's Decode is then called once, on exactly the bytes after
    that line, and [Reflect] returns what it gives (the package, or the
    decoding error). *)
Theorem decoder_finds_sentinel env importPath symbols paths progPath fr diag payload paths' :
  resolve env importPath symbols (mkFrame paths [] []) = (Returned progPath, fr) ->
  forallb diagnostic_line diag = true ->
  let stdout := unlines diag +:+ sentinel_line +:+ payload in
  Run_result env [progPath] (fs fr) = (Finished stdout 0, paths') ->
  let r := Reflect env importPath symbols paths in
  fst r = outcome_of (gob_Decode payload) /\
  trace (snd r) =
    trace fr ++ [EvRun [progPath]; EvScan stdout; EvGobDecode payload]
             ++ map cleanup_event (deferred fr).
Proof.
  intros Hres Hdiag stdout Hrun r. subst r.
  rewrite (Reflect_resolved _ _ _ _ _ _ Hres).
  rewrite (run_and_decode_zero _ _ _ _ _ Hrun).
  subst stdout. rewrite (decode_found _ _ _ Hdiag).
  rewrite finish_outcome_of. split; [reflexivity|].
  cbn [snd]. rewrite trace_return_from. simpl.
  now rewrite <- !app_assoc.
Qed.

(** The sentinel line followed by nothing: the sentinel is found, gob's Decode
    is called on the empty payload and fails with io.EOF. *)
Lemma decode_empty_payload fr :
  decode sentinel_line fr =
  (Failed io_EOF, log (EvGobDecode EmptyString) (log (EvScan sentinel_line) fr)).
Proof.
  unfold decode, bind, emit.
  replace (scan sentinel_line) with (sentinel_line, @None error, EmptyString)
    by (vm_compute; reflexivity).
  reflexivity.
Qed.

(** C3, as the code has it. When no newline-terminated line of the probe's
    output is the sentinel, [Reflect] (a total function: the scan ends)
    returns io.EOF, the error of the line reader, and gob's Decode is never
    called. The error has no kind of its own: the decoder gives the same
    outcome when it finds the sentinel and Decode fails on an empty
    payload. *)
Theorem missing_sentinel_is_EOF env importPath symbols paths progPath fr stdout paths' :
  resolve env importPath symbols (mkFrame paths [] []) = (Returned progPath, fr) ->
  Run_result env [progPath] (fs fr) = (Finished stdout 0, paths') ->
  has_sentinel_line stdout = false ->
  let r := Reflect env importPath symbols paths in
  fst r = Failed io_EOF /\
  trace (snd r) =
    trace fr ++ [EvRun [progPath]; EvScan stdout] ++ map cleanup_event (deferred fr) /\
  forall fr', decode sentinel_line fr' =
              (fst r, log (EvGobDecode EmptyString) (log (EvScan sentinel_line) fr')).
Proof.
  intros Hres Hrun Hs r. subst r.
  rewrite (Reflect_resolved _ _ _ _ _ _ Hres).
  rewrite (run_and_decode_zero _ _ _ _ _ Hrun).
  destruct (scan_no_sentinel _ Hs) as [line Hscan].
  rewrite (decode_stream_end _ _ _ Hscan).
  rewrite finish_Failed. split; [reflexivity|]. split.
  - cbn [snd]. rewrite trace_return_from. simpl.
    now rewrite <- !app_assoc.
  - intros fr'. apply decode_empty_payload.
Qed.

(** C5. When the probe exits with a non-zero status, [Reflect] returns the
    exit error; the probe was run once, and after it nothing happens but the
    deferred removals: no scan, no decoding. *)
Theorem probe_failure_is_fatal env importPath symbols paths progPath fr out n paths' :
  resolve env importPath symbols (mkFrame paths [] []) = (Returned progPath, fr) ->
  Run_result env [progPath] (fs fr) = (Finished out (S n), paths') ->
  let r := Reflect env importPath symbols paths in
  fst r = Failed (ExitError (S n)) /\
  trace (snd r) = trace fr ++ [EvRun [progPath]] ++ map cleanup_event (deferred fr).
Proof.
  intros Hres Hrun r. subst r.
  rewrite (Reflect_resolved _ _ _ _ _ _ Hres).
  rewrite (run_and_decode_nonzero _ _ _ _ _ _ Hrun).
  rewrite finish_Failed. split; [reflexivity|].
  cbn [snd]. rewrite trace_return_from. simpl.
  now rewrite <- !app_assoc.
Qed.

(** C10. When the output ends with ENCODED_PKG and no newline after it, and the
    lines before it are diagnostic lines (none of them is the sentinel), that
    last line is not taken for the sentinel: [Reflect] returns io.EOF and
    gob's Decode is never called. *)
Theorem unterminated_sentinel_is_EOF env importPath symbols paths progPath fr diag paths' :
  resolve env importPath symbols (mkFrame paths [] []) = (Returned progPath, fr) ->
  forallb diagnostic_line diag = true ->
  let stdout := unlines diag +:+ sentinel in
  Run_result env [progPath] (fs fr) = (Finished stdout 0, paths') ->
  let r := Reflect env importPath symbols paths in
  fst r = Failed io_EOF /\
  trace (snd r) =
    trace fr ++ [EvRun [progPath]; EvScan stdout] ++ map cleanup_event (deferred fr).
Proof.
  intros Hres Hdiag stdout Hrun r. subst r.
  rewrite (Reflect_resolved _ _ _ _ _ _ Hres).
  rewrite (run_and_decode_zero _ _ _ _ _ Hrun).
  assert (Hscan : scan stdout = (sentinel, Some io_EOF, EmptyString)).
  { subst stdout. rewrite scan_diagnostics by assumption. now apply scan_eof. }
  rewrite (decode_stream_end _ _ _ Hscan).
  rewrite finish_Failed. split; [reflexivity|].
  cbn [snd]. rewrite trace_return_from. simpl.
  now rewrite <- !app_assoc.
Qed.

(** ** A pre-built probe *)

Lemma resolve_prebuilt env importPath symbols fr :
  execOnly env <> EmptyString ->
  resolve env importPath symbols fr = (Returned (execOnly env), fr).
Proof.
  intros H. unfold resolve. apply String.eqb_neq in H. now rewrite H.
Qed.

(** With [-exec_only] set, a call is the run of that executable followed by
    decoder steps, and it returns. *)
Lemma prebuilt_call env importPath symbols paths :
  execOnly env <> EmptyString ->
  let r := Reflect env importPath symbols paths in
  exists events,
    trace (snd r) = EvRun [execOnly env] :: events /\
    forallb decoder_event events = true /\
    fs (snd r) = snd (Run_result env [execOnly env] paths) /\
    deferred (snd r) = [] /\
    forall code, fst r <> Exited code.
Proof.
  intros H r. subst r.
  rewrite (Reflect_resolved _ _ _ _ _ _ (resolve_prebuilt _ _ _ _ H)).
  unfold run_and_decode, bind, Run_captured. cbn [fs].
  destruct (Run_result env [execOnly env] paths) as [[out [|n] | e] paths'].
  - unfold decode, bind, emit.
    destruct (scan out) as [[line [e|]] rest].
    + exists [EvScan out]. now repeat split.
    + rewrite lift_outcome. exists [EvScan out; EvGobDecode rest].
      destruct (gob_Decode rest); now repeat split.
  - exists []. now repeat split.
  - exists []. now repeat split.
Qed.

Lemma stdout_of_decoder_events events :
  forallb decoder_event events = true -> stdout_of events = EmptyString.
Proof.
  unfold stdout_of. induction events as [|e events IH]; [reflexivity|].
  cbn [forallb flat_map]. intros H. apply andb_true_iff in H as [He Hes].
  destruct e; try discriminate He; exact (IH Hes).
Qed.

(** C4. With a pre-built probe ([-exec_only] not empty) nothing happens before
    the probe runs: no directory is made, no source is rendered or written,
    gb is not called, nothing is deferred. The call is the run of the given
    path followed by decoder steps only, and the file system is as the probe
    left it. *)
Theorem prebuilt_probe_skips_build env importPath symbols paths :
  execOnly env <> EmptyString ->
  resolve env importPath symbols (mkFrame paths [] []) =
    (Returned (execOnly env), mkFrame paths [] []) /\
  let r := Reflect env importPath symbols paths in
  exists events,
    trace (snd r) = EvRun [execOnly env] :: events /\
    forallb decoder_event events = true /\
    fs (snd r) = snd (Run_result env [execOnly env] paths).
Proof.
  intros H. split; [now apply resolve_prebuilt|].
  intros r. destruct (prebuilt_call env importPath symbols paths H)
    as (events & Ht & Hd & Hfs & _).
  exists events. now repeat split.
Qed.

(** C9. With a pre-built probe, [-prog_only] changes nothing: the call is the
    same with and without it, nothing is written to the standard output, the
    process does not exit, and the given executable is run. *)
Theorem print_only_ignored_with_prebuilt env importPath symbols paths :
  execOnly env <> EmptyString ->
  Reflect (with_progOnly true env) importPath symbols paths =
    Reflect (with_progOnly false env) importPath symbols paths /\
  let r := Reflect (with_progOnly true env) importPath symbols paths in
  stdout_of (trace (snd r)) = EmptyString /\
  (forall code, fst r <> Exited code) /\
  exists events, trace (snd r) = EvRun [execOnly env] :: events.
Proof.
  intros H. split.
  - unfold Reflect, Reflect_body, resolve, bind. cbn [execOnly with_progOnly].
    apply String.eqb_neq in H. rewrite H. reflexivity.
  - intros r.
    destruct (prebuilt_call (with_progOnly true env) importPath symbols paths H)
      as (events & Ht & Hd & _ & _ & Hx).
    fold r in Ht, Hx. repeat split.
    + rewrite Ht. unfold stdout_of. cbn [flat_map app].
      now apply stdout_of_decoder_events.
    + exact Hx.
    + now exists events.
Qed.

(** ** The synthesized program *)

Lemma append_results_inr a b : append_results (inr a) (inr b) = inr (a +:+ b).
Proof. reflexivity. Qed.

(** A template of the shape of [reflectProgram], whatever its text, writes the
    text with the quoted import path in its two places and one entry per
    symbol, in order. *)
Lemma Execute_shape (a b c d e f g : string) importPath symbols :
  Execute
    [ TextNode a; PrintfQ (DotField "ImportPath"); TextNode b;
      RangeNode (DotField "Symbols")
        [ TextNode c; PrintfQ Dot; TextNode d; Print Dot; TextNode e ];
      TextNode f; PrintfQ (DotField "ImportPath"); TextNode g ]
    (mkReflectData importPath symbols) =
  inr (a +:+ strconv_Quote importPath +:+ b +:+
       join (map (fun sym => c +:+ strconv_Quote sym +:+ d +:+ sym +:+ e) symbols) +:+
       f +:+ strconv_Quote importPath +:+ g).
Proof.
  unfold Execute, walkList. cbn [map walk evalField String.eqb Ascii.eqb Bool.eqb ImportPath Symbols].
  assert (Hrange :
    concat_results
      (map (fun elem =>
              concat_results
                [inr c; inr (strconv_Quote elem); inr d; inr elem; inr e]) symbols) =
    inr (join (map (fun sym => c +:+ strconv_Quote sym +:+ d +:+ sym +:+ e) symbols))).
  { induction symbols as [|sym symbols IH]; [reflexivity|].
    cbn [map]. unfold concat_results at 1. cbn [fold_right].
    fold (concat_results
            (map (fun elem =>
                    concat_results
                      [inr c; inr (strconv_Quote elem); inr d; inr elem; inr e]) symbols)).
    rewrite IH. unfold concat_results. cbn [fold_right append_results join].
    now rewrite !append_nil_r. }
  rewrite Hrange. unfold concat_results. cbn [fold_right append_results].
  now rewrite append_nil_r.
Qed.

Lemma Execute_reflectProgram importPath symbols :
  Execute reflectProgram (mkReflectData importPath symbols) =
  inr (program_text importPath symbols).
Proof.
  unfold reflectProgram. rewrite Execute_shape. f_equal.
  unfold program_text, text_head, text_its, import_line, text_main, extraction_entry.
  now rewrite !append_assoc.
Qed.


(** ** Symbolic execution of the build branch *)

Lemma bind_returned {A B : Type} (m : M A) (k : A -> M B) fr a fr' :
  m fr = (Returned a, fr') -> bind m k fr = k a fr'.
Proof. intros H. unfold bind. now rewrite H. Qed.

Lemma bind_failed {A B : Type} (m : M A) (k : A -> M B) fr e fr' :
  m fr = (Failed e, fr') -> bind m k fr = (Failed e, fr').
Proof. intros H. unfold bind. now rewrite H. Qed.

Lemma bind_exited {A B : Type} (m : M A) (k : A -> M B) fr code fr' :
  m fr = (Exited code, fr') -> bind m k fr = (Exited code, fr').
Proof. intros H. unfold bind. now rewrite H. Qed.

Lemma bind_congr {A B : Type} (m m' : M A) (k : A -> M B) fr :
  m fr = m' fr -> bind m k fr = bind m' k fr.
Proof. intros H. unfold bind. now rewrite H. Qed.

Lemma bind_bind {A B C : Type} (m : M A) (k : A -> M B) (k' : B -> M C) fr :
  bind (bind m k) k' fr = bind m (fun a => bind (k a) k') fr.
Proof. unfold bind. now destruct (m fr) as [[a|e|c] fr']. Qed.

(** A computation is steady when it only adds events to the trace and calls
    to the deferred ones, and returning when it never ends the process. *)
Definition steady {A : Type} (m : M A) : Prop :=
  forall fr, exists events ds,
    trace (snd (m fr)) = trace fr ++ events /\
    deferred (snd (m fr)) = ds ++ deferred fr.

Definition returning {A : Type} (m : M A) : Prop :=
  forall fr code, fst (m fr) <> Exited code.

Lemma steady_bind {A B : Type} (m : M A) (k : A -> M B) :
  steady m -> (forall a, steady (k a)) -> steady (bind m k).
Proof.
  intros Hm Hk fr. unfold bind. destruct (Hm fr) as (ev & ds & Ht & Hd).
  destruct (m fr) as [[a|e|c] fr']; cbn [snd] in *.
  - destruct (Hk a fr') as (ev' & ds' & Ht' & Hd').
    exists (ev ++ ev'), (ds' ++ ds). rewrite Ht', Hd', Ht, Hd.
    now rewrite !app_assoc.
  - now exists ev, ds.
  - now exists ev, ds.
Qed.

Lemma returning_bind {A B : Type} (m : M A) (k : A -> M B) :
  returning m -> (forall a, returning (k a)) -> returning (bind m k).
Proof.
  intros Hm Hk fr code. unfold bind. specialize (Hm fr).
  destruct (m fr) as [[a|e|c] fr']; cbn [fst] in *.
  - apply Hk.
  - discriminate.
  - now destruct (Hm c).
Qed.

Lemma steady_ret {A : Type} (a : A) : steady (ret a).
Proof. intros fr. exists [], []. now rewrite app_nil_r. Qed.

Lemma steady_lift {A : Type} (r : error + A) : steady (lift r).
Proof. intros fr. rewrite lift_outcome. exists [], []. now rewrite app_nil_r. Qed.

Lemma steady_fail {A : Type} (e : error) : steady (fail (A := A) e).
Proof. intros fr. exists [], []. now rewrite app_nil_r. Qed.

Lemma steady_emit e : steady (emit e).
Proof. intros fr. now exists [e], []. Qed.

Lemma steady_defer d : steady (defer d).
Proof. intros fr. exists [], [d]. now rewrite app_nil_r. Qed.

Lemma steady_WriteFile env path data : steady (ioutil_WriteFile env path data).
Proof.
  intros fr. unfold ioutil_WriteFile. exists [EvWriteFile path data], [].
  now destruct (WriteFile_result env path data).
Qed.

Lemma steady_Run_captured env argv : steady (Run_captured env argv).
Proof.
  intros fr. unfold Run_captured. exists [EvRun argv], [].
  now destruct (Run_result env argv (fs fr)) as [[out [|n] | e] paths].
Qed.

Lemma steady_Run_passed_through env argv : steady (Run_passed_through env argv).
Proof.
  intros fr. unfold Run_passed_through.
  destruct (Run_result env argv (fs fr)) as [[out [|n] | e] paths].
  - exists [EvRun argv; EvStdoutWrite out], []. cbn. now rewrite <- app_assoc.
  - exists [EvRun argv; EvStdoutWrite out], []. cbn. now rewrite <- app_assoc.
  - now exists [EvRun argv], [].
Qed.

Lemma returning_ret {A : Type} (a : A) : returning (ret a).
Proof. now intros fr code. Qed.

Lemma returning_lift {A : Type} (r : error + A) : returning (lift r).
Proof. intros fr code. rewrite lift_outcome. now destruct r. Qed.

Lemma returning_fail {A : Type} (e : error) : returning (fail (A := A) e).
Proof. now intros fr code. Qed.

Lemma returning_emit e : returning (emit e).
Proof. now intros fr code. Qed.

Lemma returning_defer d : returning (defer d).
Proof. now intros fr code. Qed.

Lemma returning_WriteFile env path data : returning (ioutil_WriteFile env path data).
Proof.
  intros fr code. unfold ioutil_WriteFile.
  now destruct (WriteFile_result env path data).
Qed.

Lemma returning_Run_captured env argv : returning (Run_captured env argv).
Proof.
  intros fr code. unfold Run_captured.
  now destruct (Run_result env argv (fs fr)) as [[out [|n] | e] paths].
Qed.

Lemma returning_Run_passed_through env argv : returning (Run_passed_through env argv).
Proof.
  intros fr code. unfold Run_passed_through.
  now destruct (Run_result env argv (fs fr)) as [[out [|n] | e] paths].
Qed.

Create HintDb pipeline.

#[local] Hint Resolve steady_ret steady_lift steady_fail steady_emit steady_defer
  steady_WriteFile steady_Run_captured steady_Run_passed_through
  returning_ret returning_lift returning_fail returning_emit returning_defer
  returning_WriteFile returning_Run_captured returning_Run_passed_through : pipeline.

Ltac pipeline :=
  repeat first
    [ solve [auto with pipeline]
    | apply steady_bind; [|intros ?]
    | apply returning_bind; [|intros ?] ].

Lemma steady_decode stdout : steady (decode stdout).
Proof.
  unfold decode. apply steady_bind; [auto with pipeline|]. intros _.
  destruct (scan stdout) as [[line [e|]] rest]; pipeline.
Qed.

Lemma returning_decode stdout : returning (decode stdout).
Proof.
  unfold decode. apply returning_bind; [auto with pipeline|]. intros _.
  destruct (scan stdout) as [[line [e|]] rest]; pipeline.
Qed.

#[local] Hint Resolve steady_decode returning_decode : pipeline.

Lemma steady_run_and_decode env progPath : steady (run_and_decode env progPath).
Proof. unfold run_and_decode. pipeline. Qed.

Lemma returning_run_and_decode env progPath : returning (run_and_decode env progPath).
Proof. unfold run_and_decode. pipeline. Qed.

Lemma steady_compile env tmpDir program : steady (compile env tmpDir program).
Proof. unfold compile, getGbInfo. pipeline. Qed.

Lemma returning_compile env tmpDir program : returning (compile env tmpDir program).
Proof. unfold compile, getGbInfo. pipeline. Qed.

#[local] Hint Resolve steady_run_and_decode returning_run_and_decode
  steady_compile returning_compile : pipeline.

Lemma synthesize_failed env importPath symbols fr e :
  TempDir_result env "." "gomock_reflect_" = inl e ->
  synthesize env importPath symbols fr =
  (Failed e, log (EvTempDir "." "gomock_reflect_") fr).
Proof.
  intros H. unfold synthesize, bind, ioutil_TempDir. now rewrite H.
Qed.

Lemma synthesize_returned env importPath symbols fr tmpDir :
  TempDir_result env "." "gomock_reflect_" = inr tmpDir ->
  progOnly env = false ->
  synthesize env importPath symbols fr =
  (Returned (tmpDir, program_text importPath symbols),
   mkFrame ({[tmpDir]} ∪ fs fr)
     (trace fr ++ [EvTempDir "." "gomock_reflect_"; EvRender importPath symbols])
     (defer_RemoveAll tmpDir :: deferred fr)).
Proof.
  intros Ht Hp. unfold synthesize, bind, ioutil_TempDir.
  rewrite Ht, Execute_reflectProgram, Hp.
  unfold defer, emit, lift, ret, log, set_fs. cbn [fs trace deferred].
  now rewrite <- app_assoc.
Qed.

Lemma synthesize_printed env importPath symbols fr tmpDir :
  TempDir_result env "." "gomock_reflect_" = inr tmpDir ->
  progOnly env = true ->
  synthesize env importPath symbols fr =
  (Exited 0,
   mkFrame ({[tmpDir]} ∪ fs fr)
     (trace fr ++ [EvTempDir "." "gomock_reflect_"; EvRender importPath symbols;
                   EvStdoutWrite (program_text importPath symbols); EvExit 0])
     (defer_RemoveAll tmpDir :: deferred fr)).
Proof.
  intros Ht Hp. unfold synthesize, bind, ioutil_TempDir.
  rewrite Ht, Execute_reflectProgram, Hp.
  unfold defer, emit, lift, ret, os_Exit, log, set_fs. cbn [fs trace deferred].
  now rewrite <- !app_assoc.
Qed.

Lemma resolve_build env importPath symbols fr :
  execOnly env = EmptyString ->
  resolve env importPath symbols fr = build env importPath symbols fr.
Proof. intros H. unfold resolve. now rewrite H. Qed.

(** The print-only call, in full: the directory is made and its removal
    deferred, the source is printed, the process exits, and the deferred
    removal is never run. *)
Lemma Reflect_print_only env importPath symbols paths tmpDir :
  execOnly env = EmptyString ->
  TempDir_result env "." "gomock_reflect_" = inr tmpDir ->
  progOnly env = true ->
  Reflect env importPath symbols paths =
  (Exited 0,
   mkFrame ({[tmpDir]} ∪ paths)
     [EvTempDir "." "gomock_reflect_"; EvRender importPath symbols;
      EvStdoutWrite (program_text importPath symbols); EvExit 0]
     [defer_RemoveAll tmpDir]).
Proof.
  intros He Ht Hp. unfold Reflect, Reflect_body.
  rewrite (bind_exited _ _ _ 0
             (mkFrame ({[tmpDir]} ∪ paths)
                [EvTempDir "." "gomock_reflect_"; EvRender importPath symbols;
                 EvStdoutWrite (program_text importPath symbols); EvExit 0]
                [defer_RemoveAll tmpDir])); [reflexivity|].
  rewrite resolve_build by assumption. unfold build.
  apply bind_exited. now rewrite (synthesize_printed _ _ _ _ _ Ht Hp).
Qed.

(** The call that builds: after the source is rendered it is written, and
    what follows only adds events and deferred calls, and returns. *)
Lemma Reflect_builds env importPath symbols paths tmpDir :
  execOnly env = EmptyString ->
  TempDir_result env "." "gomock_reflect_" = inr tmpDir ->
  progOnly env = false ->
  exists result fr events ds,
    Reflect env importPath symbols paths = finish (result, fr) /\
    (forall code, result <> Exited code) /\
    trace fr =
      [EvTempDir "." "gomock_reflect_"; EvRender importPath symbols;
       EvWriteFile (filepath_Join [tmpDir; "prog.go"]) (program_text importPath symbols)]
      ++ events /\
    deferred fr = ds ++ [defer_RemoveAll tmpDir].
Proof.
  intros He Ht Hp. unfold Reflect, Reflect_body.
  rewrite (bind_congr _ _ _ _ (resolve_build _ importPath symbols _ He)).
  unfold build. rewrite bind_bind.
  rewrite (bind_returned _ _ _ _ _ (synthesize_returned _ _ _ _ _ Ht Hp)).
  cbn [fst snd fs trace deferred app].
  set (fr0 := mkFrame _ _ _).
  set (program := program_text importPath symbols).
  unfold compile. rewrite bind_bind. unfold bind at 1.
  unfold ioutil_WriteFile at 1.
  destruct (WriteFile_result env (filepath_Join [tmpDir; "prog.go"]) program) as [e|].
  - exists (Failed e), (log (EvWriteFile (filepath_Join [tmpDir; "prog.go"]) program) fr0),
      [], []. now repeat split.
  - set (fr1 := set_fs _ _).
    match goal with |- context [finish (?m fr1)] => set (rest := m) end.
    assert (Hs : steady rest) by (subst rest; unfold getGbInfo; pipeline).
    assert (Hr : returning rest) by (subst rest; unfold getGbInfo; pipeline).
    destruct (Hs fr1) as (events & ds & Hev & Hds). specialize (Hr fr1).
    destruct (rest fr1) as [result fr]. cbn [fst snd] in *.
    exists result, fr, events, ds. repeat split; [exact Hr | | ].
    + rewrite Hev. reflexivity.
    + rewrite Hds. reflexivity.
Qed.

Lemma finish_returning {A : Type} (result : outcome A) fr :
  (forall code, result <> Exited code) ->
  finish (result, fr) = (result, return_from fr).
Proof. intros H. destruct result as [a|e|c]; try reflexivity. now destruct (H c). Qed.

Lemma Reflect_no_directory env importPath symbols paths e :
  execOnly env = EmptyString ->
  TempDir_result env "." "gomock_reflect_" = inl e ->
  Reflect env importPath symbols paths =
  (Failed e, mkFrame paths [EvTempDir "." "gomock_reflect_"] []).
Proof.
  intros He Ht. unfold Reflect, Reflect_body.
  rewrite (bind_congr _ _ _ _ (resolve_build _ importPath symbols _ He)).
  unfold build. rewrite bind_bind.
  now rewrite (bind_failed _ _ _ _ _ (synthesize_failed _ _ _ _ _ Ht)).
Qed.

(** ** The source a call synthesizes *)

Lemma synthesized_decoder_events events :
  forallb decoder_event events = true -> synthesized events = None.
Proof.
  induction events as [|e events IH]; [reflexivity|].
  cbn [forallb]. intros H. apply andb_true_iff in H as [He Hes].
  destruct e; try discriminate He; exact (IH Hes).
Qed.

Lemma synthesized_Reflect env importPath symbols paths program :
  synthesized (trace (snd (Reflect env importPath symbols paths))) = Some program ->
  program = program_text importPath symbols.
Proof.
  destruct (String.eqb_spec (execOnly env) EmptyString) as [He|He].
  - destruct (TempDir_result env "." "gomock_reflect_") as [e|tmpDir] eqn:Ht.
    + rewrite (Reflect_no_directory _ _ _ _ _ He Ht). discriminate.
    + destruct (progOnly env) eqn:Hp.
      * rewrite (Reflect_print_only _ _ _ _ _ He Ht Hp). cbn. congruence.
      * destruct (Reflect_builds _ importPath symbols paths _ He Ht Hp)
          as (result & fr & events & ds & -> & Hr & Hev & _).
        rewrite (finish_returning _ _ Hr). cbn [snd].
        rewrite trace_return_from, Hev. cbn. congruence.
  - destruct (prebuilt_call env importPath symbols paths He)
      as (events & -> & Hd & _).
    cbn [synthesized]. now rewrite (synthesized_decoder_events _ Hd).
Qed.

(** C6. The program source is a function of the import path and the list of
    symbols alone: two calls with the same two arguments, in whatever
    environments and file systems, that synthesize a source (print it or
    write it to prog.go) synthesize the same bytes, those that executing the
    template on the two arguments gives. *)
Theorem synthesis_is_deterministic env1 env2 importPath symbols paths1 paths2 p1 p2 :
  synthesized (trace (snd (Reflect env1 importPath symbols paths1))) = Some p1 ->
  synthesized (trace (snd (Reflect env2 importPath symbols paths2))) = Some p2 ->
  p1 = p2 /\ Execute reflectProgram (mkReflectData importPath symbols) = inr p1.
Proof.
  intros H1 H2.
  apply synthesized_Reflect in H1. apply synthesized_Reflect in H2. subst.
  split; [reflexivity | apply Execute_reflectProgram].
Qed.

(** ** The scoped directory *)

Lemma strip_elements_refl l : strip_elements l l = Some [].
Proof.
  induction l as [|x l IH]; simpl; [reflexivity|]. now rewrite String.eqb_refl.
Qed.

Lemma within_refl path : within path path = true.
Proof.
  unfold within. destruct (path_parts path) as [rooted kept].
  rewrite strip_elements_refl. now destruct rooted.
Qed.

Lemma removed_after_return fr ds tmpDir :
  deferred fr = ds ++ [defer_RemoveAll tmpDir] ->
  tmpDir ∉ fs (return_from fr).
Proof.
  intros H. unfold return_from. rewrite H, fold_left_app.
  cbn [fold_left run_deferred]. unfold os_RemoveAll, log, set_fs. cbn [fs].
  rewrite elem_of_filter. intros [Hw _]. now rewrite within_refl in Hw.
Qed.

(** On every path of the build branch that returns, the directory is gone
    when [Reflect] returns: the removal deferred first runs last. *)
Lemma workspace_removed_on_return env importPath symbols paths tmpDir :
  execOnly env = EmptyString ->
  TempDir_result env "." "gomock_reflect_" = inr tmpDir ->
  progOnly env = false ->
  let r := Reflect env importPath symbols paths in
  (tmpDir ∉ fs (snd r)) /\ forall code, fst r <> Exited code.
Proof.
  intros He Ht Hp r. subst r.
  destruct (Reflect_builds _ importPath symbols paths _ He Ht Hp)
    as (result & fr & events & ds & -> & Hr & _ & Hd).
  rewrite (finish_returning _ _ Hr). cbn [fst snd].
  split; [now apply (removed_after_return _ ds) | exact Hr].
Qed.

(** With [-prog_only] the process exits with the removal still deferred: the
    directory stays. *)
Lemma workspace_left_by_print_only env importPath symbols paths tmpDir :
  execOnly env = EmptyString ->
  TempDir_result env "." "gomock_reflect_" = inr tmpDir ->
  progOnly env = true ->
  let r := Reflect env importPath symbols paths in
  fst r = Exited 0 /\ (tmpDir ∈ fs (snd r)) /\
  deferred (snd r) = [defer_RemoveAll tmpDir].
Proof.
  intros He Ht Hp r. subst r.
  rewrite (Reflect_print_only _ _ _ _ _ He Ht Hp). cbn [fst snd fs deferred].
  repeat split. set_solver.
Qed.

(** ** path.Base and the last path component *)

(** [s] is made of the character [c] only. *)
Fixpoint only (c : ascii) (s : string) : bool :=
  match s with
  | EmptyString => true
  | String d r => Ascii.eqb d c && only c r
  end.

Lemma append_empty a b : a +:+ b = EmptyString -> b = EmptyString.
Proof. destruct a; [trivial | discriminate]. Qed.

Lemma strip_only c s : only c s = true -> strip_trailing c s = EmptyString.
Proof.
  induction s as [|d r IH]; simpl; intros H; [reflexivity|].
  apply andb_true_iff in H as [Hd Hr]. now rewrite (IH Hr), Hd.
Qed.

Lemma strip_free c s : contains c s = false -> strip_trailing c s = s.
Proof.
  induction s as [|d r IH]; simpl; intros H; [reflexivity|].
  apply orb_false_iff in H as [Hd Hr]. rewrite (IH Hr), Hd. now destruct r.
Qed.

Lemma strip_append_keep c x y :
  y <> EmptyString -> strip_trailing c y = y -> strip_trailing c (x +:+ y) = x +:+ y.
Proof.
  intros Hne Hy. induction x as [|d x IH]; simpl; [exact Hy|].
  rewrite IH. destruct (x +:+ y) eqn:E; [|reflexivity].
  now apply append_empty in E.
Qed.

Lemma strip_append_only c x t :
  only c t = true -> strip_trailing c (x +:+ t) = strip_trailing c x.
Proof.
  intros Ht. induction x as [|d x IH]; simpl; [now apply strip_only|].
  now rewrite IH.
Qed.

Lemma after_last_free c s : contains c s = false -> after_last c s = s.
Proof.
  destruct s as [|d r]; simpl; intros H; [reflexivity|].
  apply orb_false_iff in H as [Hd Hr]. now rewrite Hr, Hd.
Qed.

Lemma after_last_sep c p s :
  contains c s = false -> after_last c (p +:+ String c s) = s.
Proof.
  intros Hs. induction p as [|d p IH]; simpl.
  - now rewrite Hs, Ascii.eqb_refl.
  - rewrite contains_append. simpl. rewrite Ascii.eqb_refl.
    rewrite orb_true_r. exact IH.
Qed.

Lemma split_on_free c s : contains c s = false -> split_on c s = [s].
Proof.
  induction s as [|d r IH]; simpl; intros H; [reflexivity|].
  apply orb_false_iff in H as [Hd Hr]. now rewrite Hd, (IH Hr).
Qed.

Lemma split_on_append c a b :
  split_on c (a +:+ String c b) = split_on c a ++ split_on c b.
Proof.
  induction a as [|d a IH]; simpl.
  - now rewrite Ascii.eqb_refl.
  - destruct (Ascii.eqb d c); rewrite IH; [reflexivity|].
    destruct (split_on c a) eqn:E; [now apply split_on_not_nil in E | reflexivity].
Qed.

Lemma components_only c t :
  only c t = true -> List.filter nonempty (split_on c t) = [].
Proof.
  induction t as [|d t IH]; simpl; intros H; [reflexivity|].
  apply andb_true_iff in H as [Hd Ht]. rewrite Hd. simpl. now apply IH.
Qed.

Lemma components_append_only c x t :
  only c t = true ->
  List.filter nonempty (split_on c (x +:+ t)) = List.filter nonempty (split_on c x).
Proof.
  intros Ht. destruct t as [|d t]; [now rewrite append_nil_r|].
  simpl in Ht. apply andb_true_iff in Ht as [Hd Ht].
  apply Ascii.eqb_eq in Hd. subst d.
  rewrite split_on_append, List.filter_app, (components_only _ _ Ht).
  now rewrite app_nil_r.
Qed.

(** A path is made of slashes only, or it is a last component: something
    empty or ending with a slash, then the component, then slashes. *)
Lemma path_shape c s :
  only c s = true \/
  exists pre comp trail,
    s = pre +:+ comp +:+ trail /\
    (pre = EmptyString \/ exists p, pre = p +:+ str c) /\
    comp <> EmptyString /\ contains c comp = false /\ only c trail = true.
Proof.
  induction s as [|d s IH]; [now left|].
  destruct (Ascii.eqb d c) eqn:Hd.
  - destruct IH as [H | (pre & comp & trail & -> & Hpre & Hc)].
    + left. simpl. now rewrite Hd.
    + right. apply Ascii.eqb_eq in Hd. subst d.
      exists (String c pre), comp, trail. split; [reflexivity|]. split; [|exact Hc].
      right. destruct Hpre as [-> | [p ->]]; [now exists EmptyString | now exists (String c p)].
  - right. destruct IH as [H | (pre & comp & trail & -> & [-> | [p ->]] & Hne & Hfree & Ht)].
    + exists EmptyString, (str d), s. simpl. rewrite Hd. now repeat split; auto.
    + exists EmptyString, (String d comp), trail. simpl. rewrite Hd, Hfree.
      now repeat split; auto.
    + exists (String d p +:+ str c), comp, trail. repeat split; auto.
      right. now exists (String d p).
Qed.

Lemma base_of_shape c pre comp trail :
  (pre = EmptyString \/ exists p, pre = p +:+ str c) ->
  comp <> EmptyString -> contains c comp = false -> only c trail = true ->
  after_last c (strip_trailing c (pre +:+ comp +:+ trail)) = comp.
Proof.
  intros Hpre Hne Hfree Ht.
  rewrite <- append_assoc, strip_append_only by assumption.
  rewrite strip_append_keep by (auto using strip_free).
  destruct Hpre as [-> | [p ->]].
  - now apply after_last_free.
  - rewrite append_assoc. simpl. now apply after_last_sep.
Qed.

Lemma last_of_shape c pre comp trail :
  (pre = EmptyString \/ exists p, pre = p +:+ str c) ->
  comp <> EmptyString -> contains c comp = false -> only c trail = true ->
  last (List.filter nonempty (split_on c (pre +:+ comp +:+ trail))) = Some comp.
Proof.
  intros Hpre Hne Hfree Ht.
  rewrite <- append_assoc, components_append_only by assumption.
  assert (Hc : List.filter nonempty [comp] = [comp]) by (now destruct comp).
  destruct Hpre as [-> | [p ->]].
  - simpl. now rewrite split_on_free, Hc.
  - rewrite append_assoc. simpl. rewrite split_on_append, List.filter_app.
    rewrite (split_on_free c comp), Hc by assumption. apply last_snoc.
Qed.

(** path.Base gives the last path component; a path without one is the
    empty path, which gives ".", or slashes, which give "/". *)
Lemma path_Base_last_component path :
  path_Base path =
  match last_component path with
  | Some component => component
  | None => if String.eqb path EmptyString then "." else "/"
  end.
Proof.
  destruct path as [|d r]; [reflexivity|].
  unfold path_Base, last_component, path_components.
  change (String.eqb (String d r) EmptyString) with false.
  destruct (path_shape slash (String d r))
    as [H | (pre & comp & trail & -> & Hpre & Hne & Hfree & Ht)].
  - now rewrite strip_only, components_only.
  - rewrite base_of_shape, last_of_shape by assumption.
    destruct (pre +:+ comp +:+ trail); now destruct comp.
Qed.

(** C8. The package the probe builds is named by path.Base of the import
    path, which is the last component of the path, whatever name the package
    declares. *)
Theorem probe_names_package_after_path importPath symbols pkg :
  probe_package importPath symbols = inr pkg ->
  Pkg_Name pkg = path_Base importPath /\
  path_Base importPath =
    match last_component importPath with
    | Some component => component
    | None => if String.eqb importPath EmptyString then "." else "/"
    end.
Proof.
  intros H. split; [|apply path_Base_last_component].
  unfold probe_package in H. cbn [Pkg_Name Pkg_Interfaces] in H.
  destruct (probe_loop _ _); [discriminate|]. now inversion H.
Qed.

End Mockgen.

Arguments Returned {A} _.
Arguments Failed {A} _.
Arguments Exited {A} _.

(** * The model on concrete inputs *)

(** A probe that writes one diagnostic line, the sentinel line and a
    payload; and one whose output stops after the diagnostic line. *)
Definition sample_stdout : string := unlines ["noise"] +:+ sentinel_line +:+ "iface".

Definition sample_symbols : list string := ["Fooer"; "Barer"].

(** C1 on a probe that writes one diagnostic line, the sentinel and a payload. *)
Lemma decoder_finds_sentinel_witness :
  let env := prebuilt_env "./probe" sample_stdout 0 in
  let r := @Reflect sample_externals env "sample/iface" sample_symbols ∅ in
  forallb diagnostic_line ["noise"] = true /\
  fst r = Returned (mkPackage "iface" []) /\
  trace (snd r) = [EvRun ["./probe"]; EvScan sample_stdout; EvGobDecode "iface"].
Proof.
  split; [reflexivity|].
  exact (@decoder_finds_sentinel sample_externals
           (prebuilt_env "./probe" sample_stdout 0) "sample/iface" sample_symbols ∅
           "./probe" (mkFrame ∅ [] []) ["noise"] "iface" ∅
           eq_refl eq_refl eq_refl).
Defined.

(** C3 on a probe that writes two diagnostic lines and nothing else. *)
Lemma missing_sentinel_is_EOF_witness :
  let env := prebuilt_env "./probe" (unlines ["noise"; "more noise"]) 0 in
  let r := @Reflect sample_externals env "sample/iface" sample_symbols ∅ in
  has_sentinel_line (unlines ["noise"; "more noise"]) = false /\
  fst r = Failed io_EOF /\
  trace (snd r) = [EvRun ["./probe"]; EvScan (unlines ["noise"; "more noise"])] /\
  forall fr', @decode sample_externals sentinel_line fr' =
              (fst r, log (EvGobDecode EmptyString) (log (EvScan sentinel_line) fr')).
Proof.
  split; [reflexivity|].
  exact (@missing_sentinel_is_EOF sample_externals
           (prebuilt_env "./probe" (unlines ["noise"; "more noise"]) 0)
           "sample/iface" sample_symbols ∅
           "./probe" (mkFrame ∅ [] []) (unlines ["noise"; "more noise"]) ∅
           eq_refl eq_refl eq_refl).
Defined.

(** C3 as stated fails: the error of a stream that ends before the sentinel
    and the error of a decoding that fails on an empty payload are the same
    value, io.EOF. In the second call the sentinel was found and gob's Decode
    was called. *)
Lemma stream_end_error_is_a_decode_error :
  let absent := prebuilt_env "./probe" (unlines ["noise"]) 0 in
  let empty := prebuilt_env "./probe" sentinel_line 0 in
  let r1 := @Reflect sample_externals absent "sample/iface" sample_symbols ∅ in
  let r2 := @Reflect sample_externals empty "sample/iface" sample_symbols ∅ in
  has_sentinel_line (unlines ["noise"]) = false /\
  has_sentinel_line sentinel_line = true /\
  trace (snd r2) = [EvRun ["./probe"]; EvScan sentinel_line; EvGobDecode EmptyString] /\
  fst r1 = Failed io_EOF /\
  fst r2 = Failed io_EOF.
Proof. repeat split; vm_compute; reflexivity. Qed.

(** C5 on a probe that exits with status 1. *)
Lemma probe_failure_is_fatal_witness :
  let env := prebuilt_env "./probe" sample_stdout 1 in
  let r := @Reflect sample_externals env "sample/iface" sample_symbols ∅ in
  fst r = Failed (ExitError 1) /\ trace (snd r) = [EvRun ["./probe"]].
Proof.
  exact (@probe_failure_is_fatal sample_externals
           (prebuilt_env "./probe" sample_stdout 1) "sample/iface" sample_symbols ∅
           "./probe" (mkFrame ∅ [] []) sample_stdout 0 ∅ eq_refl eq_refl).
Defined.

(** C10 on a diagnostic line followed by ENCODED_PKG without a newline. *)
Lemma unterminated_sentinel_is_EOF_witness :
  let out := unlines ["noise"] +:+ sentinel in
  let env := prebuilt_env "./probe" out 0 in
  let r := @Reflect sample_externals env "sample/iface" sample_symbols ∅ in
  forallb diagnostic_line ["noise"] = true /\
  fst r = Failed io_EOF /\
  trace (snd r) = [EvRun ["./probe"]; EvScan out].
Proof.
  split; [reflexivity|].
  exact (@unterminated_sentinel_is_EOF sample_externals
           (prebuilt_env "./probe" (unlines ["noise"] +:+ sentinel) 0)
           "sample/iface" sample_symbols ∅
           "./probe" (mkFrame ∅ [] []) ["noise"] ∅ eq_refl eq_refl eq_refl).
Defined.

(** C10 as stated fails when a line before the last one is the sentinel. The
    output ENCODED_PKG, newline, ENCODED_PKG ends with ENCODED_PKG and no
    newline after it; the loop of lines 103 to 107 stops at the first line
    without an error, and line 115 gives the rest, the bytes ENCODED_PKG, to
    gob's Decode, whose result is the result of [Reflect]. *)
Lemma earlier_sentinel_line_is_decoded :
  let out := sentinel_line +:+ sentinel in
  let env := prebuilt_env "./probe" out 0 in
  let r := @Reflect sample_externals env "sample/iface" sample_symbols ∅ in
  split_on nl out = [sentinel; sentinel] /\
  scan out = (sentinel_line, None, sentinel) /\
  trace (snd r) = [EvRun ["./probe"]; EvScan out; EvGobDecode sentinel] /\
  fst r = outcome_of (@gob_Decode sample_externals sentinel).
Proof. repeat split; vm_compute; reflexivity. Qed.

(** C4 on the pre-built probe ./probe. *)
Lemma prebuilt_probe_skips_build_witness :
  let env := prebuilt_env "./probe" sample_stdout 0 in
  let r := @Reflect sample_externals env "sample/iface" sample_symbols ∅ in
  execOnly env <> EmptyString /\
  @resolve sample_externals env "sample/iface" sample_symbols (mkFrame ∅ [] []) =
    (Returned "./probe", mkFrame ∅ [] []) /\
  exists events,
    trace (snd r) = EvRun ["./probe"] :: events /\
    forallb decoder_event events = true /\
    fs (snd r) = ∅.
Proof.
  split; [discriminate|].
  exact (@prebuilt_probe_skips_build sample_externals
           (prebuilt_env "./probe" sample_stdout 0) "sample/iface" sample_symbols ∅
           ltac:(discriminate)).
Defined.

(** C9 on the pre-built probe ./probe. *)
Lemma print_only_ignored_with_prebuilt_witness :
  let env := prebuilt_env "./probe" sample_stdout 0 in
  let r := @Reflect sample_externals (with_progOnly true env) "sample/iface" sample_symbols ∅ in
  execOnly env <> EmptyString /\
  r = @Reflect sample_externals (with_progOnly false env) "sample/iface" sample_symbols ∅ /\
  stdout_of (trace (snd r)) = EmptyString /\
  (forall code, fst r <> Exited code) /\
  exists events, trace (snd r) = EvRun ["./probe"] :: events.
Proof.
  split; [discriminate|].
  exact (@print_only_ignored_with_prebuilt sample_externals
           (prebuilt_env "./probe" sample_stdout 0) "sample/iface" sample_symbols ∅
           ltac:(discriminate)).
Defined.

(** The probe of the example toolchain is the modelled probe program. *)
Definition sample_probe : string * nat :=
  @probe_main sample_externals "sample/iface" sample_symbols.

(** C6 on a print-only call and a building call, in different file systems. *)
Lemma synthesis_is_deterministic_witness :
  let program := @program_text sample_externals "sample/iface" sample_symbols in
  let r1 := @Reflect sample_externals (toolchain_env true sample_probe)
              "sample/iface" sample_symbols ∅ in
  let r2 := @Reflect sample_externals (toolchain_env false sample_probe)
              "sample/iface" sample_symbols {["README"]} in
  synthesized (trace (snd r1)) = Some program /\
  synthesized (trace (snd r2)) = Some program /\
  program = program /\
  @Execute sample_externals reflectProgram (mkReflectData "sample/iface" sample_symbols) =
    inr program.
Proof.
  assert (H1 : synthesized
                 (trace (snd (@Reflect sample_externals (toolchain_env true sample_probe)
                                "sample/iface" sample_symbols ∅))) =
               Some (@program_text sample_externals "sample/iface" sample_symbols))
    by (vm_compute; reflexivity).
  assert (H2 : synthesized
                 (trace (snd (@Reflect sample_externals (toolchain_env false sample_probe)
                                "sample/iface" sample_symbols {["README"]}))) =
               Some (@program_text sample_externals "sample/iface" sample_symbols))
    by (vm_compute; reflexivity).
  split; [exact H1|]. split; [exact H2|].
  exact (@synthesis_is_deterministic sample_externals _ _ _ _ _ _ _ _ H1 H2).
Defined.

(** C8 on the import path sample/iface. *)
Lemma probe_names_package_after_path_witness :
  @probe_package sample_externals "sample/iface" sample_symbols =
    inr (mkPackage "iface" [mkInterface "Fooer" []; mkInterface "Barer" []]) /\
  last_component "sample/iface" = Some "iface" /\
  path_Base "sample/iface" = "iface".
Proof.
  split; [reflexivity|]. split; [reflexivity|].
  exact (proj1 (@probe_names_package_after_path sample_externals "sample/iface"
                  sample_symbols _ eq_refl)).
Defined.

(** C2 fails on the print-only path. With a working toolchain and
    [-prog_only], the process exits with status 0 while the directory
    gomock_reflect_1 exists and its removal is still deferred. *)
Theorem print_only_leaves_workspace :
  let r := @Reflect sample_externals (toolchain_env true sample_probe)
             "sample/iface" sample_symbols ∅ in
  fst r = Exited 0 /\
  ("gomock_reflect_1" ∈ fs (snd r)) /\
  deferred (snd r) = [defer_RemoveAll "gomock_reflect_1"].
Proof.
  exact (@workspace_left_by_print_only sample_externals
           (toolchain_env true sample_probe) "sample/iface" sample_symbols ∅
           "gomock_reflect_1" eq_refl eq_refl eq_refl).
Qed.

(** The same toolchain without [-prog_only]: the source is written and built,
    the probe run, its output decoded, and the binary and the directory
    removed, in this order. *)
Example build_run_decode :
  let r := @Reflect sample_externals (toolchain_env false sample_probe)
             "sample/iface" sample_symbols ∅ in
  fst r = Returned (mkPackage "iface" []) /\
  fs (snd r) = ∅ /\
  trace (snd r) =
    [ EvTempDir "." "gomock_reflect_";
      EvRender "sample/iface" sample_symbols;
      EvWriteFile "gomock_reflect_1/prog.go"
        (@program_text sample_externals "sample/iface" sample_symbols);
      EvRun ["gb"; "info"; "GB_PROJECT_DIR"];
      EvRun ["gb"; "info"; "GB_BIN_SUFFIX"];
      EvRun ["gb"; "build"; "gomock_reflect_1"];
      EvStdoutWrite EmptyString;
      EvRun ["/project/bin/gomock_reflect_1"];
      EvScan (fst sample_probe);
      EvGobDecode "iface";
      EvRemove "/project/bin/gomock_reflect_1";
      EvRemoveAll "gomock_reflect_1" ].
Proof. repeat split; vm_compute; reflexivity. Qed.

(** * The rest of reflect.go: getGbInfo, the stages of the build branch, the
    decoder on any stream, and the probe program *)

(** The error [cmd.Run()] returns: none when the child exits with status 0. *)
Definition run_error (r : ExecResult) : option error :=
  match r with
  | RunFailed e => Some e
  | Finished _ 0 => None
  | Finished _ (S n) => Some (ExitError (S n))
  end.

(** What a child whose standard output is [os.Stdout] makes the process
    write. *)
Definition passed_through (r : ExecResult) : list Event :=
  match r with
  | RunFailed _ => []
  | Finished out _ => [EvStdoutWrite out]
  end.

(** The commands a call ran, in order. *)
Definition commands (events : list Event) : list (list string) :=
  flat_map (fun e => match e with EvRun argv => [argv] | _ => [] end) events.

(** [n] times the character [c]. *)
Fixpoint replicate_char (n : nat) (c : ascii) : string :=
  match n with
  | 0 => EmptyString
  | S n' => String c (replicate_char n' c)
  end.

Definition first_is (c : ascii) (s : string) : bool :=
  match s with
  | EmptyString => false
  | String d _ => Ascii.eqb d c
  end.

Fixpoint last_is (c : ascii) (s : string) : bool :=
  match s with
  | EmptyString => false
  | String d EmptyString => Ascii.eqb d c
  | String _ r => last_is c r
  end.

(** The path of the binary, as lines 79 and 80 compute it from the outputs of
    the two queries. *)
Definition binary_path `{Ext : Externals} (tmpDir out_dir out_suffix : string) : string :=
  filepath_Join [Trim nl out_dir; "bin"; filepath_Base tmpDir +:+ Trim nl out_suffix].

(** filepath.Join on a system whose separator is the slash: the elements from
    the first non-empty one on, joined by slashes and cleaned; the empty
    string when there is none. *)
Fixpoint go_Join (elem : list string) : string :=
  match elem with
  | [] => EmptyString
  | e :: rest => if nonempty e then Clean (String.concat "/" elem) else go_Join rest
  end.

(** An element of a path: not empty, without a slash. *)
Definition plain_element (c : string) : Prop :=
  c <> EmptyString /\ contains slash c = false.

(** The elements a cleaning keeps, the last one first: no ".", and ".." only
    at the start of a name that is not rooted. *)
Fixpoint normal (rooted : bool) (kept : list string) : Prop :=
  match kept with
  | [] => True
  | c :: below =>
      plain_element c /\ c <> "." /\
      (c = ".." -> rooted = false /\ Forall (eq "..") below) /\
      normal rooted below
  end.

(** An instance in which only the types Fooer and Barer are interfaces. *)
Definition strict_externals : Externals := {|
  Method := string;
  RType := string;
  reflect_TypeOf := fun _ sym => sym;
  InterfaceFromInterfaceType := fun typ =>
    if String.eqb typ "Fooer" || String.eqb typ "Barer"
    then inr (mkInterface ("iface." +:+ typ) ["Do"])
    else inl (OtherError (typ +:+ " is not an interface"));
  gob_Encode := fun pkg => inr (Pkg_Name pkg);
  gob_decodeValue := fun input => inr (mkPackage input []);
  strconv_Quote := quoted;
  filepath_Join := String.concat "/";
  filepath_Base := path_Base
|}.

(** An instance whose file paths are joined as filepath.Join joins them. *)
Definition cleaning_externals : Externals := {|
  Method := string;
  RType := string;
  reflect_TypeOf := fun _ sym => sym;
  InterfaceFromInterfaceType := fun typ => inr (mkInterface typ []);
  gob_Encode := fun pkg => inr (Pkg_Name pkg);
  gob_decodeValue := fun input => inr (mkPackage input []);
  strconv_Quote := quoted;
  filepath_Join := go_Join;
  filepath_Base := path_Base
|}.

(** The commands of the build branch, from the answers that the write of the
    source, the two queries and the build get: a command is on the list when
    every step before it was answered without an error, the queries and the
    build with a status of 0. The probe is the binary that lines 79 and 80 name
    from the outputs of the two queries. *)
Definition planned_commands `{Ext : Externals} (tmpDir : string)
    (write : option error) (query_dir query_suffix build : ExecResult)
    : list (list string) :=
  match write with
  | Some _ => []
  | None =>
      ["gb"; "info"; "GB_PROJECT_DIR"] ::
      match query_dir with
      | Finished out_dir 0 =>
          ["gb"; "info"; "GB_BIN_SUFFIX"] ::
          match query_suffix with
          | Finished out_suffix 0 =>
              ["gb"; "build"; tmpDir] ::
              match build with
              | Finished _ 0 => [[binary_path tmpDir out_dir out_suffix]]
              | _ => []
              end
          | _ => []
          end
      | _ => []
      end
  end.

Section Stages.

Context `{Ext : Externals}.

(** ** strings.Trim and getGbInfo *)

Lemma only_replicate n c : only c (replicate_char n c) = true.
Proof. induction n as [|n IH]; simpl; [reflexivity|]. now rewrite Ascii.eqb_refl. Qed.

Lemma trim_left_only c s : only c s = true -> trim_left c s = EmptyString.
Proof.
  induction s as [|d r IH]; simpl; intros H; [reflexivity|].
  apply andb_true_iff in H as [Hd Hr]. rewrite Hd. now apply IH.
Qed.

Lemma trim_left_replicate n c s :
  first_is c s = false -> s <> EmptyString ->
  trim_left c (replicate_char n c +:+ s) = s.
Proof.
  intros Hf Hne. induction n as [|n IH]; simpl.
  - destruct s as [|d r]; [contradiction|]. simpl in *. now rewrite Hf.
  - now rewrite Ascii.eqb_refl.
Qed.

Lemma strip_keep c s : last_is c s = false -> strip_trailing c s = s.
Proof.
  induction s as [|d r IH]; simpl; intros H; [reflexivity|].
  destruct r as [|d' r'].
  - simpl. now rewrite H.
  - rewrite (IH H). reflexivity.
Qed.

Lemma Trim_surrounded a b c core :
  first_is c core = false -> last_is c core = false ->
  Trim c (replicate_char a c +:+ core +:+ replicate_char b c) = core.
Proof.
  intros Hf Hl. unfold Trim. destruct core as [|d r].
  - simpl (EmptyString +:+ _). rewrite trim_left_only; [reflexivity|].
    clear. induction a as [|a IH]; simpl; [apply only_replicate|].
    now rewrite Ascii.eqb_refl.
  - rewrite trim_left_replicate.
    + rewrite strip_append_only by apply only_replicate. now apply strip_keep.
    + exact Hf.
    + discriminate.
Qed.

(** X1. getGbInfo: when `gb info` exits with status 0, the result is its output
    without the newlines at its two ends, however many there are; newlines
    inside stay. *)
Theorem getGbInfo_trims_both_ends env param fr a b core paths' :
  first_is nl core = false -> last_is nl core = false ->
  Run_result env ["gb"; "info"; param] (fs fr) =
    (Finished (replicate_char a nl +:+ core +:+ replicate_char b nl) 0, paths') ->
  getGbInfo env param fr =
    (Returned core, set_fs paths' (log (EvRun ["gb"; "info"; param]) fr)).
Proof.
  intros Hf Hl Hrun. unfold getGbInfo, bind, Run_captured. rewrite Hrun.
  unfold ret. now rewrite Trim_surrounded.
Qed.

(** When `gb info` fails, in whatever way, the error of [cmd.Run] is the
    result and what the child wrote is dropped. *)
Lemma getGbInfo_failed env param fr r e paths' :
  Run_result env ["gb"; "info"; param] (fs fr) = (r, paths') ->
  run_error r = Some e ->
  getGbInfo env param fr =
    (Failed e, set_fs paths' (log (EvRun ["gb"; "info"; param]) fr)).
Proof.
  intros Hrun He. unfold getGbInfo, bind, Run_captured. rewrite Hrun.
  destruct r as [out [|n] | e']; simpl in He; now inversion He.
Qed.

Lemma getGbInfo_returned env param fr out paths' :
  Run_result env ["gb"; "info"; param] (fs fr) = (Finished out 0, paths') ->
  getGbInfo env param fr =
    (Returned (Trim nl out), set_fs paths' (log (EvRun ["gb"; "info"; param]) fr)).
Proof.
  intros Hrun. unfold getGbInfo, bind, Run_captured. now rewrite Hrun.
Qed.

(** ** The stages of the build branch, one failure at a time *)

(** The body of a building call: the source is synthesized, then compiled and
    the probe run from the frame [built_frame]. *)
Definition built_frame (importPath : string) (symbols : list string)
    (paths : gset string) (tmpDir : string) : Frame :=
  mkFrame ({[tmpDir]} ∪ paths)
    [EvTempDir "." "gomock_reflect_"; EvRender importPath symbols]
    [defer_RemoveAll tmpDir].

Lemma Reflect_build_mode env importPath symbols paths tmpDir :
  execOnly env = EmptyString ->
  TempDir_result env "." "gomock_reflect_" = inr tmpDir ->
  progOnly env = false ->
  Reflect env importPath symbols paths =
  finish (bind (compile env tmpDir (program_text importPath symbols))
               (run_and_decode env)
               (built_frame importPath symbols paths tmpDir)).
Proof.
  intros He Ht Hp. unfold Reflect, Reflect_body.
  rewrite (bind_congr _ _ _ _ (resolve_build _ importPath symbols _ He)).
  unfold build. rewrite bind_bind.
  now rewrite (bind_returned _ _ _ _ _ (synthesize_returned _ _ _ _ _ Ht Hp)).
Qed.

Lemma compile_write_failed env tmpDir program fr e :
  WriteFile_result env (filepath_Join [tmpDir; "prog.go"]) program = Some e ->
  compile env tmpDir program fr =
  (Failed e, log (EvWriteFile (filepath_Join [tmpDir; "prog.go"]) program) fr).
Proof.
  intros Hw. unfold compile, bind, ioutil_WriteFile. now rewrite Hw.
Qed.

(** The frame in which the first query runs. *)
Definition written_frame (tmpDir program : string) (fr : Frame) : Frame :=
  mkFrame ({[filepath_Join [tmpDir; "prog.go"]]} ∪ fs fr)
    (trace fr ++ [EvWriteFile (filepath_Join [tmpDir; "prog.go"]) program])
    (deferred fr).

Lemma compile_query_dir_failed env tmpDir program fr r e paths1 :
  WriteFile_result env (filepath_Join [tmpDir; "prog.go"]) program = None ->
  Run_result env ["gb"; "info"; "GB_PROJECT_DIR"] (fs (written_frame tmpDir program fr)) =
    (r, paths1) ->
  run_error r = Some e ->
  compile env tmpDir program fr =
  (Failed e,
   set_fs paths1 (log (EvRun ["gb"; "info"; "GB_PROJECT_DIR"]) (written_frame tmpDir program fr))).
Proof.
  intros Hw Hrun He. unfold compile. unfold bind at 1. unfold ioutil_WriteFile.
  rewrite Hw.
  change (set_fs _ (log _ fr)) with (written_frame tmpDir program fr).
  now rewrite (bind_failed _ _ _ _ _ (getGbInfo_failed _ _ _ _ _ _ Hrun He)).
Qed.

Lemma compile_query_suffix_failed env tmpDir program fr out1 paths1 r e paths2 :
  WriteFile_result env (filepath_Join [tmpDir; "prog.go"]) program = None ->
  Run_result env ["gb"; "info"; "GB_PROJECT_DIR"] (fs (written_frame tmpDir program fr)) =
    (Finished out1 0, paths1) ->
  Run_result env ["gb"; "info"; "GB_BIN_SUFFIX"] paths1 = (r, paths2) ->
  run_error r = Some e ->
  compile env tmpDir program fr =
  (Failed e,
   mkFrame paths2
     (trace fr ++ [EvWriteFile (filepath_Join [tmpDir; "prog.go"]) program;
                   EvRun ["gb"; "info"; "GB_PROJECT_DIR"];
                   EvRun ["gb"; "info"; "GB_BIN_SUFFIX"]])
     (deferred fr)).
Proof.
  intros Hw Hrun1 Hrun2 He. unfold compile. unfold bind at 1. unfold ioutil_WriteFile.
  rewrite Hw.
  change (set_fs _ (log _ fr)) with (written_frame tmpDir program fr).
  rewrite (bind_returned _ _ _ _ _ (getGbInfo_returned _ _ _ _ _ Hrun1)).
  rewrite (bind_failed _ _ _ e
             (set_fs paths2 (log (EvRun ["gb"; "info"; "GB_BIN_SUFFIX"])
                (set_fs paths1 (log (EvRun ["gb"; "info"; "GB_PROJECT_DIR"])
                   (written_frame tmpDir program fr)))))).
  - unfold set_fs, log, written_frame. cbn [fs trace deferred].
    now rewrite <- !app_assoc.
  - apply (getGbInfo_failed _ _ _ r); [exact Hrun2 | exact He].
Qed.

(** The outcome of the build stage once both queries have answered. *)
Lemma compile_queried env tmpDir program fr out1 paths1 out2 paths2 r paths3 :
  WriteFile_result env (filepath_Join [tmpDir; "prog.go"]) program = None ->
  Run_result env ["gb"; "info"; "GB_PROJECT_DIR"] (fs (written_frame tmpDir program fr)) =
    (Finished out1 0, paths1) ->
  Run_result env ["gb"; "info"; "GB_BIN_SUFFIX"] paths1 = (Finished out2 0, paths2) ->
  Run_result env ["gb"; "build"; tmpDir] paths2 = (r, paths3) ->
  compile env tmpDir program fr =
  (match run_error r with
   | Some e => Failed e
   | None => Returned (binary_path tmpDir out1 out2)
   end,
   mkFrame paths3
     (trace fr ++ [EvWriteFile (filepath_Join [tmpDir; "prog.go"]) program;
                   EvRun ["gb"; "info"; "GB_PROJECT_DIR"];
                   EvRun ["gb"; "info"; "GB_BIN_SUFFIX"];
                   EvRun ["gb"; "build"; tmpDir]] ++ passed_through r)
     (defer_Remove (binary_path tmpDir out1 out2) :: deferred fr)).
Proof.
  intros Hw Hrun1 Hrun2 Hrun3. unfold compile. unfold bind at 1. unfold ioutil_WriteFile.
  rewrite Hw.
  change (set_fs _ (log _ fr)) with (written_frame tmpDir program fr).
  rewrite (bind_returned _ _ _ _ _ (getGbInfo_returned _ _ _ _ _ Hrun1)).
  rewrite (bind_returned _ _ _ (Trim nl out2)
             (set_fs paths2 (log (EvRun ["gb"; "info"; "GB_BIN_SUFFIX"])
                (set_fs paths1 (log (EvRun ["gb"; "info"; "GB_PROJECT_DIR"])
                   (written_frame tmpDir program fr))))));
    [|now apply getGbInfo_returned].
  unfold bind, defer, Run_passed_through, ret, set_fs, log, written_frame, binary_path.
  cbn [fs trace deferred]. rewrite Hrun3.
  destruct r as [out [|n] | e]; cbn [run_error passed_through fs trace deferred];
    now rewrite <- !app_assoc.
Qed.

Lemma return_from_workspace paths events tmpDir :
  return_from (mkFrame paths events [defer_RemoveAll tmpDir]) =
  mkFrame (filter (fun p => within tmpDir p = false) paths)
    (events ++ [EvRemoveAll tmpDir]) [].
Proof. reflexivity. Qed.

(** X2. When the temporary directory cannot be made, [Reflect] returns the error
    of ioutil.TempDir and has done nothing else: nothing rendered, written or
    run, nothing deferred, the file system as it was. *)
Theorem no_directory_no_effect env importPath symbols paths e :
  execOnly env = EmptyString ->
  TempDir_result env "." "gomock_reflect_" = inl e ->
  Reflect env importPath symbols paths =
  (Failed e, mkFrame paths [EvTempDir "." "gomock_reflect_"] []).
Proof. intros He Ht. now apply Reflect_no_directory. Qed.

(** X3. When the source cannot be written, [Reflect] returns the error of
    ioutil.WriteFile: gb is never called and no probe is run; the directory
    and what lies below it are removed. *)
Theorem write_failure_stops_build env importPath symbols paths tmpDir e :
  execOnly env = EmptyString ->
  TempDir_result env "." "gomock_reflect_" = inr tmpDir ->
  progOnly env = false ->
  WriteFile_result env (filepath_Join [tmpDir; "prog.go"])
    (program_text importPath symbols) = Some e ->
  Reflect env importPath symbols paths =
  (Failed e,
   mkFrame (filter (fun p => within tmpDir p = false) ({[tmpDir]} ∪ paths))
     [ EvTempDir "." "gomock_reflect_";
       EvRender importPath symbols;
       EvWriteFile (filepath_Join [tmpDir; "prog.go"]) (program_text importPath symbols);
       EvRemoveAll tmpDir ]
     []).
Proof.
  intros He Ht Hp Hw. rewrite (Reflect_build_mode _ _ _ _ _ He Ht Hp).
  rewrite (bind_failed _ _ _ _ _ (compile_write_failed _ _ _ _ _ Hw)).
  rewrite finish_Failed. unfold built_frame, log. cbn [fs trace deferred app].
  now rewrite return_from_workspace.
Qed.

(** X4. When the query for the project directory fails, [Reflect] returns its
    error: the second query and the build are not run, no probe is run, and
    no removal of a binary is deferred; the directory is removed. *)
Theorem failed_dir_query_stops_build env importPath symbols paths tmpDir r e paths1 :
  execOnly env = EmptyString ->
  TempDir_result env "." "gomock_reflect_" = inr tmpDir ->
  progOnly env = false ->
  WriteFile_result env (filepath_Join [tmpDir; "prog.go"])
    (program_text importPath symbols) = None ->
  Run_result env ["gb"; "info"; "GB_PROJECT_DIR"]
    ({[filepath_Join [tmpDir; "prog.go"]]} ∪ ({[tmpDir]} ∪ paths)) = (r, paths1) ->
  run_error r = Some e ->
  Reflect env importPath symbols paths =
  (Failed e,
   mkFrame (filter (fun p => within tmpDir p = false) paths1)
     [ EvTempDir "." "gomock_reflect_";
       EvRender importPath symbols;
       EvWriteFile (filepath_Join [tmpDir; "prog.go"]) (program_text importPath symbols);
       EvRun ["gb"; "info"; "GB_PROJECT_DIR"];
       EvRemoveAll tmpDir ]
     []).
Proof.
  intros He Ht Hp Hw Hrun Hr. rewrite (Reflect_build_mode _ _ _ _ _ He Ht Hp).
  rewrite (bind_failed _ _ _ _ _
             (compile_query_dir_failed _ _ _ (built_frame importPath symbols paths tmpDir)
                _ _ _ Hw Hrun Hr)).
  rewrite finish_Failed. unfold built_frame, written_frame, set_fs, log.
  cbn [fs trace deferred app]. now rewrite return_from_workspace.
Qed.

(** X5. When the query for the binary suffix fails, [Reflect] returns its error:
    the answer of the first query is dropped, the build is not run, no probe
    is run, and no removal of a binary is deferred; the directory is
    removed. *)
Theorem failed_suffix_query_stops_build
    env importPath symbols paths tmpDir out1 paths1 r e paths2 :
  execOnly env = EmptyString ->
  TempDir_result env "." "gomock_reflect_" = inr tmpDir ->
  progOnly env = false ->
  WriteFile_result env (filepath_Join [tmpDir; "prog.go"])
    (program_text importPath symbols) = None ->
  Run_result env ["gb"; "info"; "GB_PROJECT_DIR"]
    ({[filepath_Join [tmpDir; "prog.go"]]} ∪ ({[tmpDir]} ∪ paths)) =
    (Finished out1 0, paths1) ->
  Run_result env ["gb"; "info"; "GB_BIN_SUFFIX"] paths1 = (r, paths2) ->
  run_error r = Some e ->
  Reflect env importPath symbols paths =
  (Failed e,
   mkFrame (filter (fun p => within tmpDir p = false) paths2)
     [ EvTempDir "." "gomock_reflect_";
       EvRender importPath symbols;
       EvWriteFile (filepath_Join [tmpDir; "prog.go"]) (program_text importPath symbols);
       EvRun ["gb"; "info"; "GB_PROJECT_DIR"];
       EvRun ["gb"; "info"; "GB_BIN_SUFFIX"];
       EvRemoveAll tmpDir ]
     []).
Proof.
  intros He Ht Hp Hw Hrun1 Hrun2 Hr. rewrite (Reflect_build_mode _ _ _ _ _ He Ht Hp).
  rewrite (bind_failed _ _ _ _ _
             (compile_query_suffix_failed _ _ _
                (built_frame importPath symbols paths tmpDir)
                _ _ _ _ _ Hw Hrun1 Hrun2 Hr)).
  rewrite finish_Failed. unfold built_frame. cbn [fs trace deferred app].
  now rewrite return_from_workspace.
Qed.

(** X6. When `gb build` fails, [Reflect] returns its error and runs no probe. What
    the build wrote has gone to the standard output, and the path where the
    binary would be is removed before the directory. *)
Theorem build_failure_runs_no_probe
    env importPath symbols paths tmpDir out1 paths1 out2 paths2 r e paths3 :
  execOnly env = EmptyString ->
  TempDir_result env "." "gomock_reflect_" = inr tmpDir ->
  progOnly env = false ->
  WriteFile_result env (filepath_Join [tmpDir; "prog.go"])
    (program_text importPath symbols) = None ->
  Run_result env ["gb"; "info"; "GB_PROJECT_DIR"]
    ({[filepath_Join [tmpDir; "prog.go"]]} ∪ ({[tmpDir]} ∪ paths)) =
    (Finished out1 0, paths1) ->
  Run_result env ["gb"; "info"; "GB_BIN_SUFFIX"] paths1 = (Finished out2 0, paths2) ->
  Run_result env ["gb"; "build"; tmpDir] paths2 = (r, paths3) ->
  run_error r = Some e ->
  let result := Reflect env importPath symbols paths in
  fst result = Failed e /\
  trace (snd result) =
    [ EvTempDir "." "gomock_reflect_";
      EvRender importPath symbols;
      EvWriteFile (filepath_Join [tmpDir; "prog.go"]) (program_text importPath symbols);
      EvRun ["gb"; "info"; "GB_PROJECT_DIR"];
      EvRun ["gb"; "info"; "GB_BIN_SUFFIX"];
      EvRun ["gb"; "build"; tmpDir] ]
    ++ passed_through r
    ++ [ EvRemove (binary_path tmpDir out1 out2); EvRemoveAll tmpDir ].
Proof.
  intros He Ht Hp Hw Hrun1 Hrun2 Hrun3 Hr result. subst result.
  rewrite (Reflect_build_mode _ _ _ _ _ He Ht Hp).
  pose proof (compile_queried _ _ _ (built_frame importPath symbols paths tmpDir)
                _ _ _ _ _ _ Hw Hrun1 Hrun2 Hrun3) as Hc.
  rewrite Hr in Hc. rewrite (bind_failed _ _ _ _ _ Hc), finish_Failed.
  split; [reflexivity|]. cbn [snd]. rewrite trace_return_from.
  unfold built_frame. cbn [fs trace deferred app map cleanup_event].
  now rewrite <- ?app_assoc.
Qed.

(** X7. When the directory is made, the source written, both queries answered and
    the build done, the probe to run is filepath.Join of the trimmed project
    directory, bin, and the base name of the directory followed by the
    trimmed suffix; its removal is deferred after that of the directory, so
    that it runs first. *)
Theorem build_resolves_binary
    env importPath symbols paths tmpDir out1 paths1 out2 paths2 out3 paths3 :
  execOnly env = EmptyString ->
  TempDir_result env "." "gomock_reflect_" = inr tmpDir ->
  progOnly env = false ->
  WriteFile_result env (filepath_Join [tmpDir; "prog.go"])
    (program_text importPath symbols) = None ->
  Run_result env ["gb"; "info"; "GB_PROJECT_DIR"]
    ({[filepath_Join [tmpDir; "prog.go"]]} ∪ ({[tmpDir]} ∪ paths)) =
    (Finished out1 0, paths1) ->
  Run_result env ["gb"; "info"; "GB_BIN_SUFFIX"] paths1 = (Finished out2 0, paths2) ->
  Run_result env ["gb"; "build"; tmpDir] paths2 = (Finished out3 0, paths3) ->
  resolve env importPath symbols (mkFrame paths [] []) =
  (Returned (binary_path tmpDir out1 out2),
   mkFrame paths3
     [ EvTempDir "." "gomock_reflect_";
       EvRender importPath symbols;
       EvWriteFile (filepath_Join [tmpDir; "prog.go"]) (program_text importPath symbols);
       EvRun ["gb"; "info"; "GB_PROJECT_DIR"];
       EvRun ["gb"; "info"; "GB_BIN_SUFFIX"];
       EvRun ["gb"; "build"; tmpDir];
       EvStdoutWrite out3 ]
     [ defer_Remove (binary_path tmpDir out1 out2); defer_RemoveAll tmpDir ]).
Proof.
  intros He Ht Hp Hw Hrun1 Hrun2 Hrun3.
  rewrite resolve_build by assumption. unfold build.
  rewrite (bind_returned _ _ _ _ _ (synthesize_returned _ _ _ _ _ Ht Hp)).
  cbn [fst snd app].
  exact (compile_queried _ _ _ (built_frame importPath symbols paths tmpDir)
           _ _ _ _ _ _ Hw Hrun1 Hrun2 Hrun3).
Qed.

(** ** What a call runs, and in which order *)

Lemma commands_app l1 l2 : commands (l1 ++ l2) = commands l1 ++ commands l2.
Proof. apply flat_map_app. Qed.

Lemma commands_cleanup ds : commands (map cleanup_event ds) = [].
Proof. induction ds as [|[p|p] ds IH]; simpl; exact IH || reflexivity. Qed.

Lemma commands_passed_through r : commands (passed_through r) = [].
Proof. now destruct r. Qed.

Ltac count_commands :=
  cbn [snd]; rewrite ?trace_return_from; unfold set_fs, log; cbn [trace];
  rewrite ?commands_app, ?commands_cleanup; unfold commands;
  cbn [flat_map app]; rewrite ?app_nil_r; try reflexivity.

(** Running a probe and decoding adds one command, the probe. *)
Lemma run_and_decode_commands env progPath fr :
  commands (trace (snd (finish (run_and_decode env progPath fr)))) =
  commands (trace fr) ++ [[progPath]].
Proof.
  unfold run_and_decode, bind, Run_captured.
  destruct (Run_result env [progPath] (fs fr)) as [[out [|n] | e] paths'].
  - unfold decode, bind, emit.
    destruct (scan out) as [[line [e|]] rest].
    + unfold fail. rewrite finish_Failed. count_commands.
    + rewrite lift_outcome, finish_outcome_of. count_commands.
  - rewrite finish_Failed. count_commands.
  - rewrite finish_Failed. count_commands.
Qed.

Lemma commands_failed_compile {A : Type} (e : error) fr events :
  trace fr = events ->
  commands (trace (snd (finish (A := A) (Failed e, fr)))) = commands events.
Proof.
  intros <-. rewrite finish_Failed. cbn [snd].
  now rewrite trace_return_from, commands_app, commands_cleanup, app_nil_r.
Qed.

(** X8. In the build branch, once the directory is made and [-prog_only] is not
    set, the commands of a call are exactly these, in this order: nothing when
    the source cannot be written; else the query for the project directory;
    the query for the suffix only if the first query succeeded; the build of
    the directory of line 45 only if both queries succeeded; and the binary
    that lines 79 and 80 name, once, only if the build succeeded. So nothing is
    run after a command that failed, and nothing but these four. *)
Theorem build_commands_in_order env importPath symbols paths tmpDir
    query_dir paths1 query_suffix paths2 build paths3 :
  execOnly env = EmptyString ->
  TempDir_result env "." "gomock_reflect_" = inr tmpDir ->
  progOnly env = false ->
  Run_result env ["gb"; "info"; "GB_PROJECT_DIR"]
    ({[filepath_Join [tmpDir; "prog.go"]]} ∪ ({[tmpDir]} ∪ paths)) =
    (query_dir, paths1) ->
  Run_result env ["gb"; "info"; "GB_BIN_SUFFIX"] paths1 = (query_suffix, paths2) ->
  Run_result env ["gb"; "build"; tmpDir] paths2 = (build, paths3) ->
  commands (trace (snd (Reflect env importPath symbols paths))) =
  planned_commands tmpDir
    (WriteFile_result env (filepath_Join [tmpDir; "prog.go"])
       (program_text importPath symbols))
    query_dir query_suffix build.
Proof.
  intros He Ht Hp Hrun1 Hrun2 Hrun3.
  rewrite (Reflect_build_mode _ _ _ _ _ He Ht Hp).
  set (fr := built_frame importPath symbols paths tmpDir).
  set (program := program_text importPath symbols).
  destruct (WriteFile_result env (filepath_Join [tmpDir; "prog.go"]) program)
    as [e|] eqn:Hw.
  { rewrite (bind_failed _ _ _ _ _ (compile_write_failed _ _ _ fr _ Hw)).
    now rewrite (commands_failed_compile _ _ _ eq_refl). }
  change (Run_result env ["gb"; "info"; "GB_PROJECT_DIR"]
            (fs (written_frame tmpDir program fr)) = (query_dir, paths1)) in Hrun1.
  destruct (run_error query_dir) as [e|] eqn:Hr1.
  { rewrite (bind_failed _ _ _ _ _
               (compile_query_dir_failed _ _ _ fr _ _ _ Hw Hrun1 Hr1)).
    rewrite (commands_failed_compile _ _ _ eq_refl).
    now destruct query_dir as [out1 [|n1] | e1]; try discriminate Hr1. }
  destruct query_dir as [out1 [|n1] | e1]; try discriminate Hr1.
  destruct (run_error query_suffix) as [e|] eqn:Hr2.
  { rewrite (bind_failed _ _ _ _ _
               (compile_query_suffix_failed _ _ _ fr _ _ _ _ _ Hw Hrun1 Hrun2 Hr2)).
    rewrite (commands_failed_compile _ _ _ eq_refl).
    now destruct query_suffix as [out2 [|n2] | e2]; try discriminate Hr2. }
  destruct query_suffix as [out2 [|n2] | e2]; try discriminate Hr2.
  pose proof (compile_queried _ _ _ fr _ _ _ _ _ _ Hw Hrun1 Hrun2 Hrun3) as Hc.
  destruct (run_error build) as [e|] eqn:Hr3.
  - rewrite (bind_failed _ _ _ _ _ Hc).
    rewrite (commands_failed_compile _ _ _ eq_refl). cbn [trace].
    rewrite !commands_app, commands_passed_through.
    now destruct build as [out3 [|n3] | e3]; try discriminate Hr3.
  - rewrite (bind_returned _ _ _ _ _ Hc), run_and_decode_commands.
    cbn [trace]. rewrite !commands_app, commands_passed_through.
    now destruct build as [out3 [|n3] | e3]; try discriminate Hr3.
Qed.

(** ** Path names *)

Lemma split_on_pieces c s : Forall (fun x => contains c x = false) (split_on c s).
Proof.
  induction s as [|d r IH]; simpl.
  - now constructor.
  - destruct (Ascii.eqb d c) eqn:Hd.
    + now constructor.
    + destruct (split_on c r) as [|l ls].
      * constructor; [|constructor]. simpl. now rewrite Hd.
      * inversion IH; subst. constructor; [|assumption]. simpl. now rewrite Hd.
Qed.

Lemma components_plain path : Forall plain_element (path_components path).
Proof.
  unfold path_components. apply List.Forall_forall. intros x Hx.
  apply List.filter_In in Hx as [Hx Hn]. split.
  - destruct x; [discriminate Hn | discriminate].
  - pose proof (split_on_pieces slash path) as H.
    rewrite List.Forall_forall in H. now apply H.
Qed.

Lemma components_of_plain c : plain_element c -> path_components c = [c].
Proof.
  intros [Hn Hs]. unfold path_components. rewrite (split_on_free slash c Hs).
  simpl. destruct c; [contradiction | reflexivity].
Qed.

Lemma components_append a b :
  path_components (a +:+ String slash b) = path_components a ++ path_components b.
Proof. unfold path_components. now rewrite split_on_append, List.filter_app. Qed.

Lemma components_concat kept :
  Forall plain_element kept -> path_components (String.concat "/" kept) = kept.
Proof.
  induction 1 as [|x xs Hx Hxs IH]; [reflexivity|].
  destruct xs as [|y ys].
  - now apply components_of_plain.
  - change (String.concat "/" (x :: y :: ys))
      with (x +:+ String slash (String.concat "/" (y :: ys))).
    now rewrite components_append, IH, (components_of_plain x Hx).
Qed.

Lemma rooted_concat kept :
  Forall plain_element kept -> is_rooted (String.concat "/" kept) = false.
Proof.
  intros H. destruct H as [|x xs [Hn Hs] _]; [reflexivity|].
  destruct x as [|a x]; [contradiction|].
  simpl in Hs. apply orb_false_iff in Hs as [Ha _].
  now destruct xs.
Qed.

Lemma clean_step_normal rooted kept c :
  plain_element c -> normal rooted kept -> normal rooted (clean_step rooted kept c).
Proof.
  intros Hc Hk. unfold clean_step.
  destruct (String.eqb c ".") eqn:Hdot; [assumption|].
  apply String.eqb_neq in Hdot.
  destruct (String.eqb c "..") eqn:Hup.
  - apply String.eqb_eq in Hup. subst c.
    destruct kept as [|top rest].
    + destruct rooted; [exact I|].
      cbn [normal]. split; [exact Hc|]. split; [exact Hdot|]. split; [|exact I].
      intros _. split; [reflexivity | constructor].
    + destruct (String.eqb top "..") eqn:Htop; [|apply Hk].
      apply String.eqb_eq in Htop.
      destruct Hk as (Ht & Htd & Htu & Hrest).
      destruct (Htu Htop) as [Hr Hall].
      cbn [normal]. split; [exact Hc|]. split; [exact Hdot|]. split.
      * intros _. split; [assumption|]. constructor; [now symmetry | assumption].
      * exact (conj Ht (conj Htd (conj Htu Hrest))).
  - apply String.eqb_neq in Hup.
    cbn [normal]. split; [exact Hc|]. split; [exact Hdot|]. split; [|exact Hk].
    intros H. contradiction.
Qed.

Lemma clean_fold_normal rooted elements kept :
  Forall plain_element elements -> normal rooted kept ->
  normal rooted (fold_left (clean_step rooted) elements kept).
Proof.
  intros H. revert kept. induction H as [|c cs Hc _ IH]; intros kept Hk; simpl;
    [assumption|].
  apply IH. now apply clean_step_normal.
Qed.

Lemma normal_plain rooted kept : normal rooted kept -> Forall plain_element kept.
Proof.
  induction kept as [|c kept IH]; [constructor|].
  intros (Hc & _ & _ & Hk). constructor; auto.
Qed.

(** Cleaning what is clean changes nothing. *)
Lemma clean_fold_rebuild rooted kept :
  normal rooted kept -> fold_left (clean_step rooted) (rev kept) [] = kept.
Proof.
  induction kept as [|c kept IH]; [reflexivity|].
  intros (Hc & Hdot & Hup & Hk). cbn [rev]. rewrite fold_left_app, (IH Hk).
  cbn [fold_left]. unfold clean_step.
  apply String.eqb_neq in Hdot. rewrite Hdot.
  destruct (String.eqb c "..") eqn:Hc2; [|reflexivity].
  apply String.eqb_eq in Hc2. destruct (Hup Hc2) as [-> Hall].
  destruct kept as [|top rest]; [reflexivity|].
  inversion Hall; subst. reflexivity.
Qed.

Lemma clean_elements_normal rooted elements :
  Forall plain_element elements -> normal rooted (rev (clean_elements rooted elements)).
Proof.
  intros H. unfold clean_elements. rewrite rev_involutive.
  now apply clean_fold_normal.
Qed.

Lemma clean_elements_clean rooted kept :
  normal rooted (rev kept) -> clean_elements rooted kept = kept.
Proof.
  intros H. unfold clean_elements.
  rewrite <- (rev_involutive kept) at 1.
  now rewrite (clean_fold_rebuild _ _ H), rev_involutive.
Qed.

Lemma path_parts_rendered rooted kept :
  normal rooted (rev kept) ->
  path_parts (match rooted, kept with
              | false, [] => "."
              | false, _ => String.concat "/" kept
              | true, _ => "/" +:+ String.concat "/" kept
              end) = (rooted, kept).
Proof.
  intros Hn. pose proof (normal_plain _ _ Hn) as Hp.
  apply List.Forall_rev in Hp. rewrite rev_involutive in Hp.
  destruct rooted.
  - change ("/" +:+ String.concat "/" kept)
      with (EmptyString +:+ String slash (String.concat "/" kept)).
    unfold path_parts. rewrite components_append, (components_concat _ Hp).
    change (path_components EmptyString) with (@nil string). cbn [app].
    replace (is_rooted (EmptyString +:+ String slash (String.concat "/" kept)))
      with true by reflexivity.
    now rewrite (clean_elements_clean _ _ Hn).
  - destruct kept as [|c kept']; [reflexivity|].
    unfold path_parts. rewrite (rooted_concat _ Hp), (components_concat _ Hp).
    now rewrite (clean_elements_clean _ _ Hn).
Qed.

(** A name and its cleaned form have the same parts. *)
Lemma path_parts_Clean path : path_parts (Clean path) = path_parts path.
Proof.
  unfold Clean. destruct (path_parts path) as [rooted kept] eqn:E.
  unfold path_parts in E. injection E as Hr Hk.
  pose proof (clean_elements_normal rooted _ (components_plain path)) as Hn.
  rewrite Hr in Hk. rewrite Hk in Hn.
  rewrite <- (path_parts_rendered rooted kept Hn).
  now destruct rooted, kept.
Qed.

Lemma strip_elements_app pre rest : strip_elements pre (pre ++ rest) = Some rest.
Proof.
  induction pre as [|x pre IH]; simpl; [now destruct rest|].
  now rewrite String.eqb_refl.
Qed.

Lemma clean_elements_snoc rooted elements c :
  String.eqb c "." = false -> String.eqb c ".." = false ->
  clean_elements rooted (elements ++ [c]) = clean_elements rooted elements ++ [c].
Proof.
  intros Hdot Hup. unfold clean_elements. rewrite fold_left_app. cbn [fold_left].
  unfold clean_step at 1. now rewrite Hdot, Hup.
Qed.

(** Joined to a directory as filepath.Join does, the name of the source file
    is a name in that directory, however the directory is written. *)
Lemma source_file_within dir : within dir (go_Join [dir; "prog.go"]) = true.
Proof.
  destruct dir as [|a dir]; [reflexivity|].
  unfold go_Join. cbn [nonempty]. unfold within.
  rewrite path_parts_Clean.
  change (String.concat "/" [String a dir; "prog.go"])
    with (String a dir +:+ String slash "prog.go").
  unfold path_parts.
  replace (is_rooted (String a dir +:+ String slash "prog.go"))
    with (is_rooted (String a dir)) by reflexivity.
  rewrite components_append.
  change (path_components "prog.go") with ["prog.go"].
  rewrite clean_elements_snoc by reflexivity.
  rewrite strip_elements_app.
  now destruct (is_rooted (String a dir)).
Qed.

(** ** Returning, exiting and cleaning up *)

Lemma removed_below_after_return fr ds tmpDir p :
  deferred fr = ds ++ [defer_RemoveAll tmpDir] ->
  within tmpDir p = true ->
  p ∉ fs (return_from fr).
Proof.
  intros H Hp. unfold return_from. rewrite H, fold_left_app.
  cbn [fold_left run_deferred]. unfold os_RemoveAll, log, set_fs. cbn [fs].
  rewrite elem_of_filter. intros [Hw _]. congruence.
Qed.

(** X9. When a building call returns, whatever happened after the directory was
    made, no name that lies in the directory is left, however the name is
    written: a name lies in the directory when its cleaned elements continue
    those of the directory. The source file is among them when the join of
    line 65 is filepath.Join, also when the directory is named ./d and the
    file d/prog.go. *)
Theorem workspace_contents_removed env importPath symbols paths tmpDir :
  execOnly env = EmptyString ->
  TempDir_result env "." "gomock_reflect_" = inr tmpDir ->
  progOnly env = false ->
  let left := fs (snd (Reflect env importPath symbols paths)) in
  (forall p, within tmpDir p = true -> p ∉ left) /\
  (filepath_Join [tmpDir; "prog.go"] = go_Join [tmpDir; "prog.go"] ->
   filepath_Join [tmpDir; "prog.go"] ∉ left).
Proof.
  intros He Ht Hp left.
  assert (Hin : forall p, within tmpDir p = true -> p ∉ left).
  { intros p Hw. subst left.
    destruct (Reflect_builds _ importPath symbols paths _ He Ht Hp)
      as (result & fr & events & ds & -> & Hr & _ & Hd).
    rewrite (finish_returning _ _ Hr). cbn [snd].
    now apply (removed_below_after_return _ ds tmpDir). }
  split; [exact Hin|].
  intros Hj. apply Hin. rewrite Hj. apply source_file_within.
Qed.

(** X10. [Reflect] ends the process in one situation only: [-prog_only] is set,
    [-exec_only] is empty and the directory was made; the status is then 0.
    In every other situation it returns to its caller. *)
Theorem exit_only_when_printing env importPath symbols paths code :
  fst (Reflect env importPath symbols paths) = Exited code ->
  code = 0 /\ progOnly env = true /\ execOnly env = EmptyString /\
  exists tmpDir, TempDir_result env "." "gomock_reflect_" = inr tmpDir.
Proof.
  intros H.
  destruct (String.eqb_spec (execOnly env) EmptyString) as [He|He].
  - destruct (TempDir_result env "." "gomock_reflect_") as [e|tmpDir] eqn:Ht.
    + rewrite (Reflect_no_directory _ _ _ _ _ He Ht) in H. discriminate.
    + destruct (progOnly env) eqn:Hp.
      * rewrite (Reflect_print_only _ _ _ _ _ He Ht Hp) in H.
        inversion H. repeat split; eauto.
      * destruct (workspace_removed_on_return _ importPath symbols paths _ He Ht Hp)
          as [_ Hr]. now destruct (Hr code).
  - destruct (prebuilt_call env importPath symbols paths He)
      as (events & _ & _ & _ & _ & Hr). now destruct (Hr code).
Qed.

(** X11. With [-prog_only] in the build branch the process writes the program
    source, and nothing else, to its standard output and exits with status
    0. It runs no command and writes no file: the directory it made is the only
    change to the file system. *)
Theorem print_only_prints_the_source env importPath symbols paths tmpDir :
  execOnly env = EmptyString ->
  TempDir_result env "." "gomock_reflect_" = inr tmpDir ->
  progOnly env = true ->
  let r := Reflect env importPath symbols paths in
  fst r = Exited 0 /\
  stdout_of (trace (snd r)) = program_text importPath symbols /\
  commands (trace (snd r)) = [] /\
  fs (snd r) = {[tmpDir]} ∪ paths.
Proof.
  intros He Ht Hp r. subst r. rewrite (Reflect_print_only _ _ _ _ _ He Ht Hp).
  repeat split. unfold stdout_of, join. cbn [snd trace flat_map app fold_right].
  apply append_nil_r.
Qed.

(** X12. With a pre-built probe the import path and the symbols are not used: the
    call is the same whatever they are. *)
Theorem prebuilt_ignores_arguments env importPath symbols importPath' symbols' paths :
  execOnly env <> EmptyString ->
  Reflect env importPath symbols paths = Reflect env importPath' symbols' paths.
Proof.
  intros He.
  rewrite (Reflect_resolved _ importPath symbols _ _ _ (resolve_prebuilt _ _ _ _ He)).
  now rewrite (Reflect_resolved _ importPath' symbols' _ _ _ (resolve_prebuilt _ _ _ _ He)).
Qed.

(** X13. When the probe cannot be run at all (no such file, no permission),
    [Reflect] returns the error of [cmd.Run] as it is, without scanning or
    decoding anything; the deferred removals still run. *)
Theorem unstartable_probe_is_fatal env importPath symbols paths progPath fr e paths' :
  resolve env importPath symbols (mkFrame paths [] []) = (Returned progPath, fr) ->
  Run_result env [progPath] (fs fr) = (RunFailed e, paths') ->
  let r := Reflect env importPath symbols paths in
  fst r = Failed e /\
  trace (snd r) = trace fr ++ [EvRun [progPath]] ++ map cleanup_event (deferred fr).
Proof.
  intros Hres Hrun r. subst r.
  rewrite (Reflect_resolved _ _ _ _ _ _ Hres).
  unfold run_and_decode, bind, Run_captured. rewrite Hrun.
  rewrite finish_Failed. split; [reflexivity|].
  cbn [snd]. rewrite trace_return_from. simpl. now rewrite <- !app_assoc.
Qed.

(** ** The decoder on any stream *)

Lemma terminated_lines_free s : contains nl s = false -> terminated_lines s = [].
Proof. intros H. unfold terminated_lines. now rewrite split_on_free. Qed.

(** A stream with a sentinel line is diagnostic lines, the first sentinel
    line, and the rest. *)
Lemma sentinel_line_found s :
  has_sentinel_line s = true ->
  exists diag rest,
    forallb diagnostic_line diag = true /\
    s = unlines diag +:+ sentinel_line +:+ rest.
Proof.
  remember (String.length s) as n eqn:Hn. revert s Hn.
  induction n as [n IH] using lt_wf_ind. intros s Hn Hs.
  unfold has_sentinel_line in Hs.
  destruct (first_line nl s) as [H | (l & rest' & -> & Hl)].
  - rewrite terminated_lines_free in Hs by assumption. discriminate.
  - rewrite terminated_lines_line in Hs by assumption. cbn [existsb] in Hs.
    destruct (String.eqb sentinel l) eqn:E.
    + apply String.eqb_eq in E. subst l. exists [], rest'. split; [reflexivity|].
      unfold sentinel_line. simpl unlines. now rewrite append_assoc.
    + destruct (IH (String.length rest')) with (s := rest')
        as (diag & rest & Hd & ->); [|reflexivity|exact Hs|].
      * subst n. rewrite length_append. simpl. lia.
      * exists (l :: diag), rest. split.
        -- cbn [forallb]. rewrite Hd. unfold diagnostic_line.
           rewrite Hl, String.eqb_sym, E. reflexivity.
        -- cbn [unlines]. now rewrite append_assoc.
Qed.

(** X14. The decoder is reached whenever some newline-terminated line of the
    probe's output is the sentinel: gob's Decode is then called on what
    follows the first such line, whatever the lines before it and whatever
    follows, and [Reflect] returns its result. *)
Theorem sentinel_line_reaches_decoder env importPath symbols paths progPath fr stdout paths' :
  resolve env importPath symbols (mkFrame paths [] []) = (Returned progPath, fr) ->
  Run_result env [progPath] (fs fr) = (Finished stdout 0, paths') ->
  has_sentinel_line stdout = true ->
  exists diag payload,
    stdout = unlines diag +:+ sentinel_line +:+ payload /\
    forallb diagnostic_line diag = true /\
    let r := Reflect env importPath symbols paths in
    fst r = outcome_of (gob_Decode payload) /\
    trace (snd r) =
      trace fr ++ [EvRun [progPath]; EvScan stdout; EvGobDecode payload]
               ++ map cleanup_event (deferred fr).
Proof.
  intros Hres Hrun Hs.
  destruct (sentinel_line_found _ Hs) as (diag & payload & Hd & ->).
  exists diag, payload. split; [reflexivity|]. split; [exact Hd|].
  intros r. subst r.
  rewrite (Reflect_resolved _ _ _ _ _ _ Hres).
  rewrite (run_and_decode_zero _ _ _ _ _ Hrun).
  rewrite (decode_found _ _ _ Hd), finish_outcome_of.
  split; [reflexivity|]. cbn [snd]. rewrite trace_return_from. simpl.
  now rewrite <- !app_assoc.
Qed.

(** ** The probe program and the decoder *)

(** X15. What the probe writes when it succeeds is what the decoder expects: the
    empty line before the sentinel is skipped, the sentinel found, and gob's
    Decode gets exactly the bytes gob's Encode wrote. *)
Theorem probe_output_reaches_decoder importPath symbols pkg bytes :
  probe_package importPath symbols = inr pkg ->
  gob_Encode pkg = inr bytes ->
  snd (probe_main importPath symbols) = 0 /\
  forall fr,
    decode (fst (probe_main importPath symbols)) fr =
    (outcome_of (gob_Decode bytes),
     log (EvGobDecode bytes) (log (EvScan (fst (probe_main importPath symbols))) fr)).
Proof.
  intros Hp Hb. unfold probe_main. rewrite Hp, Hb. cbn [fst snd].
  split; [reflexivity|]. intros fr. rewrite append_assoc.
  exact (decode_found [EmptyString] bytes fr eq_refl).
Qed.

Lemma probe_loop_appends importPath symbols interfaces result :
  probe_loop (map (fun sym => (sym, reflect_TypeOf importPath sym)) symbols) interfaces =
    inr result ->
  exists fresh,
    result = interfaces ++ fresh /\
    map Intf_Name fresh = symbols /\
    Forall2 (fun sym intf =>
               exists reported,
                 InterfaceFromInterfaceType (reflect_TypeOf importPath sym) = inr reported /\
                 Intf_Methods intf = Intf_Methods reported)
            symbols fresh.
Proof.
  revert interfaces. induction symbols as [|sym symbols IH]; intros interfaces H.
  - simpl in H. inversion H. exists []. now rewrite app_nil_r.
  - simpl in H.
    destruct (InterfaceFromInterfaceType (reflect_TypeOf importPath sym))
      as [e|reported] eqn:E; [discriminate|].
    destruct (IH _ H) as (fresh & -> & Hn & Hf).
    exists (mkInterface sym (Intf_Methods reported) :: fresh).
    rewrite <- app_assoc. split; [reflexivity|]. split.
    + cbn. now rewrite Hn.
    + constructor; [|exact Hf]. now exists reported.
Qed.

(** X16. The interfaces of the package the probe builds are those of the requested
    symbols, in the order of the request and named after the symbols
    (whatever name the type reports); the methods of each are the ones
    model.InterfaceFromInterfaceType gives for the type. *)
Theorem probe_interfaces_follow_symbols importPath symbols pkg :
  probe_package importPath symbols = inr pkg ->
  map Intf_Name (Pkg_Interfaces pkg) = symbols /\
  Forall2 (fun sym intf =>
             exists reported,
               InterfaceFromInterfaceType (reflect_TypeOf importPath sym) = inr reported /\
               Intf_Methods intf = Intf_Methods reported)
          symbols (Pkg_Interfaces pkg).
Proof.
  unfold probe_package. cbn [Pkg_Name Pkg_Interfaces]. intros H.
  destruct (probe_loop _ _) as [e|result] eqn:E; [discriminate|].
  inversion H. subst pkg. cbn [Pkg_Interfaces].
  destruct (probe_loop_appends _ _ _ _ E) as (fresh & -> & Hn & Hf).
  now split.
Qed.

Lemma probe_loop_fails importPath symbols interfaces e :
  probe_loop (map (fun sym => (sym, reflect_TypeOf importPath sym)) symbols) interfaces =
    inl e <->
  exists before sym after,
    symbols = before ++ sym :: after /\
    Forall (fun s => exists reported,
                       InterfaceFromInterfaceType (reflect_TypeOf importPath s) =
                       inr reported) before /\
    InterfaceFromInterfaceType (reflect_TypeOf importPath sym) = inl e.
Proof.
  revert interfaces. induction symbols as [|s symbols IH]; intros interfaces; simpl.
  - split; [discriminate|]. intros (before & sym & after & H & _).
    now destruct before.
  - destruct (InterfaceFromInterfaceType (reflect_TypeOf importPath s))
      as [e'|reported] eqn:E.
    + split.
      * intros H. inversion H. subst e'. exists [], s, symbols. now repeat split.
      * intros ([|b before] & sym & after & H & Hb & Hs); simpl in H; inversion H; subst.
        -- congruence.
        -- inversion Hb as [|? ? [reported Hr] ?]; subst. congruence.
    + rewrite IH. split.
      * intros (before & sym & after & -> & Hb & Hs).
        exists (s :: before), sym, after. repeat split; [|exact Hs].
        constructor; [now exists reported | exact Hb].
      * intros ([|b before] & sym & after & H & Hb & Hs); simpl in H; inversion H; subst.
        -- congruence.
        -- exists before, sym, after. repeat split; [|exact Hs].
           now inversion Hb.
Qed.

(** X17. The probe fails before the sentinel exactly when some requested symbol is
    not an interface type: the error is that of the first such symbol in the
    list, the symbols before it having been converted; the probe then writes
    nothing to its standard output and exits with status 1. *)
Theorem probe_stops_at_first_bad_symbol importPath symbols e :
  (probe_package importPath symbols = inl e <->
   exists before sym after,
     symbols = before ++ sym :: after /\
     Forall (fun s => exists reported,
                        InterfaceFromInterfaceType (reflect_TypeOf importPath s) =
                        inr reported) before /\
     InterfaceFromInterfaceType (reflect_TypeOf importPath sym) = inl e) /\
  (probe_package importPath symbols = inl e ->
   probe_main importPath symbols = (EmptyString, 1)).
Proof.
  split.
  - rewrite <- (probe_loop_fails importPath symbols []).
    unfold probe_package. cbn [Pkg_Name Pkg_Interfaces].
    destruct (probe_loop _ _); split; congruence.
  - intros H. unfold probe_main. now rewrite H.
Qed.

End Stages.

(** * The stages on concrete inputs *)

(** A build-branch environment given by the answer of each step: the
    directory, the write, the two queries, the build and the probe. *)
Definition scripted_env (dir : error + string) (write : option error)
    (query_dir query_suffix build probe : ExecResult) : Env :=
  mkEnv false EmptyString
    (fun _ _ => dir)
    (fun _ _ => write)
    (fun argv paths =>
       match argv with
       | ["gb"; "info"; "GB_PROJECT_DIR"] => (query_dir, paths)
       | ["gb"; "info"; "GB_BIN_SUFFIX"] => (query_suffix, paths)
       | ["gb"; "build"; d] => (build, {["/project/bin/" +:+ d +:+ ".exe"]} ∪ paths)
       | _ => (probe, paths)
       end).

Definition answer_dir : ExecResult := Finished ("/project" +:+ str nl) 0.
Definition answer_suffix : ExecResult := Finished (".exe" +:+ str nl) 0.
Definition answer_probe : ExecResult := Finished sample_stdout 0.

(** A pre-built probe that cannot be started. *)
Definition missing_probe_env : Env :=
  mkEnv false "./probe"
    (fun _ _ => inl (OtherError "no temporary directory"))
    (fun _ _ => None)
    (fun _ paths => (RunFailed (OtherError "no such file or directory"), paths)).

(** Two newlines, two lines, one newline: the two lines are the answer. *)
Lemma getGbInfo_trims_both_ends_witness :
  let answer := "/project" +:+ str nl +:+ "second line" in
  let env := prebuilt_env "gb" (replicate_char 2 nl +:+ answer +:+ replicate_char 1 nl) 0 in
  @getGbInfo env "GB_PROJECT_DIR" (mkFrame ∅ [] []) =
  (Returned answer, mkFrame ∅ [EvRun ["gb"; "info"; "GB_PROJECT_DIR"]] []).
Proof.
  exact (getGbInfo_trims_both_ends
           (prebuilt_env "gb"
              (replicate_char 2 nl +:+ ("/project" +:+ str nl +:+ "second line")
               +:+ replicate_char 1 nl) 0)
           "GB_PROJECT_DIR" (mkFrame ∅ [] []) 2 1
           ("/project" +:+ str nl +:+ "second line") ∅ eq_refl eq_refl eq_refl).
Defined.

(** One environment per way the build branch can end. *)
Definition readonly_env : Env :=
  scripted_env (inl (OtherError "read-only file system")) None
    answer_dir answer_suffix (Finished EmptyString 0) answer_probe.

Definition full_disk_env : Env :=
  scripted_env (inr "gomock_reflect_1") (Some (OtherError "disk full"))
    answer_dir answer_suffix (Finished EmptyString 0) answer_probe.

Definition no_project_env : Env :=
  scripted_env (inr "gomock_reflect_1") None
    (Finished "not a gb project" 1) answer_suffix (Finished EmptyString 0) answer_probe.

Definition no_gb_env : Env :=
  scripted_env (inr "gomock_reflect_1") None
    answer_dir (RunFailed (OtherError "gb: not found"))
    (Finished EmptyString 0) answer_probe.

Definition broken_source_env : Env :=
  scripted_env (inr "gomock_reflect_1") None
    answer_dir answer_suffix (Finished "prog.go:12: undefined" 2) answer_probe.

Definition working_env : Env :=
  scripted_env (inr "gomock_reflect_1") None
    answer_dir answer_suffix (Finished "ok" 0) answer_probe.

Lemma no_directory_no_effect_witness :
  @Reflect sample_externals readonly_env "sample/iface" sample_symbols {["README"]} =
  (Failed (OtherError "read-only file system"),
   mkFrame {["README"]} [EvTempDir "." "gomock_reflect_"] []).
Proof.
  exact (@no_directory_no_effect sample_externals readonly_env "sample/iface"
           sample_symbols {["README"]} _ eq_refl eq_refl).
Defined.

Lemma write_failure_stops_build_witness :
  let r := @Reflect sample_externals full_disk_env "sample/iface" sample_symbols ∅ in
  fst r = Failed (OtherError "disk full") /\
  commands (trace (snd r)) = [] /\
  last (trace (snd r)) = Some (EvRemoveAll "gomock_reflect_1").
Proof.
  rewrite (@write_failure_stops_build sample_externals full_disk_env
             "sample/iface" sample_symbols ∅ "gomock_reflect_1"
             (OtherError "disk full") eq_refl eq_refl eq_refl eq_refl).
  repeat split.
Defined.

Lemma failed_dir_query_stops_build_witness :
  let r := @Reflect sample_externals no_project_env "sample/iface" sample_symbols ∅ in
  fst r = Failed (ExitError 1) /\
  commands (trace (snd r)) = [["gb"; "info"; "GB_PROJECT_DIR"]] /\
  last (trace (snd r)) = Some (EvRemoveAll "gomock_reflect_1").
Proof.
  rewrite (@failed_dir_query_stops_build sample_externals no_project_env
             "sample/iface" sample_symbols ∅ "gomock_reflect_1"
             (Finished "not a gb project" 1) (ExitError 1)
             ({["gomock_reflect_1/prog.go"]} ∪ ({["gomock_reflect_1"]} ∪ ∅))
             eq_refl eq_refl eq_refl eq_refl eq_refl eq_refl).
  repeat split.
Defined.

Lemma failed_suffix_query_stops_build_witness :
  let r := @Reflect sample_externals no_gb_env "sample/iface" sample_symbols ∅ in
  fst r = Failed (OtherError "gb: not found") /\
  commands (trace (snd r)) =
    [["gb"; "info"; "GB_PROJECT_DIR"]; ["gb"; "info"; "GB_BIN_SUFFIX"]] /\
  last (trace (snd r)) = Some (EvRemoveAll "gomock_reflect_1").
Proof.
  rewrite (@failed_suffix_query_stops_build sample_externals no_gb_env
             "sample/iface" sample_symbols ∅ "gomock_reflect_1"
             ("/project" +:+ str nl)
             ({["gomock_reflect_1/prog.go"]} ∪ ({["gomock_reflect_1"]} ∪ ∅))
             (RunFailed (OtherError "gb: not found")) (OtherError "gb: not found")
             ({["gomock_reflect_1/prog.go"]} ∪ ({["gomock_reflect_1"]} ∪ ∅))
             eq_refl eq_refl eq_refl eq_refl eq_refl eq_refl eq_refl).
  repeat split.
Defined.

Lemma build_failure_runs_no_probe_witness :
  let r := @Reflect sample_externals broken_source_env "sample/iface" sample_symbols ∅ in
  fst r = Failed (ExitError 2) /\
  trace (snd r) =
    [ EvTempDir "." "gomock_reflect_";
      EvRender "sample/iface" sample_symbols;
      EvWriteFile "gomock_reflect_1/prog.go"
        (@program_text sample_externals "sample/iface" sample_symbols);
      EvRun ["gb"; "info"; "GB_PROJECT_DIR"];
      EvRun ["gb"; "info"; "GB_BIN_SUFFIX"];
      EvRun ["gb"; "build"; "gomock_reflect_1"];
      EvStdoutWrite "prog.go:12: undefined";
      EvRemove "/project/bin/gomock_reflect_1.exe";
      EvRemoveAll "gomock_reflect_1" ].
Proof.
  exact (@build_failure_runs_no_probe sample_externals broken_source_env
           "sample/iface" sample_symbols ∅ "gomock_reflect_1"
           ("/project" +:+ str nl)
           ({["gomock_reflect_1/prog.go"]} ∪ ({["gomock_reflect_1"]} ∪ ∅))
           (".exe" +:+ str nl)
           ({["gomock_reflect_1/prog.go"]} ∪ ({["gomock_reflect_1"]} ∪ ∅))
           (Finished "prog.go:12: undefined" 2) (ExitError 2)
           ({["/project/bin/gomock_reflect_1.exe"]} ∪
            ({["gomock_reflect_1/prog.go"]} ∪ ({["gomock_reflect_1"]} ∪ ∅)))
           eq_refl eq_refl eq_refl eq_refl eq_refl eq_refl eq_refl eq_refl).
Defined.

Lemma build_resolves_binary_witness :
  fst (@resolve sample_externals working_env "sample/iface" sample_symbols
         (mkFrame ∅ [] [])) =
    Returned "/project/bin/gomock_reflect_1.exe" /\
  deferred
    (snd (@resolve sample_externals working_env "sample/iface" sample_symbols
            (mkFrame ∅ [] []))) =
    [defer_Remove "/project/bin/gomock_reflect_1.exe"; defer_RemoveAll "gomock_reflect_1"].
Proof.
  rewrite (@build_resolves_binary sample_externals working_env
             "sample/iface" sample_symbols ∅ "gomock_reflect_1"
             ("/project" +:+ str nl)
             ({["gomock_reflect_1/prog.go"]} ∪ ({["gomock_reflect_1"]} ∪ ∅))
             (".exe" +:+ str nl)
             ({["gomock_reflect_1/prog.go"]} ∪ ({["gomock_reflect_1"]} ∪ ∅))
             "ok"
             ({["/project/bin/gomock_reflect_1.exe"]} ∪
              ({["gomock_reflect_1/prog.go"]} ∪ ({["gomock_reflect_1"]} ∪ ∅)))
             eq_refl eq_refl eq_refl eq_refl eq_refl eq_refl eq_refl).
  split; reflexivity.
Defined.

(** X8 on a build that fails, and on one that succeeds. *)
Lemma build_commands_in_order_witness :
  commands
    (trace (snd (@Reflect sample_externals broken_source_env "sample/iface"
                   sample_symbols ∅))) =
    [ ["gb"; "info"; "GB_PROJECT_DIR"];
      ["gb"; "info"; "GB_BIN_SUFFIX"];
      ["gb"; "build"; "gomock_reflect_1"] ] /\
  commands
    (trace (snd (@Reflect sample_externals working_env "sample/iface"
                   sample_symbols ∅))) =
    [ ["gb"; "info"; "GB_PROJECT_DIR"];
      ["gb"; "info"; "GB_BIN_SUFFIX"];
      ["gb"; "build"; "gomock_reflect_1"];
      ["/project/bin/gomock_reflect_1.exe"] ].
Proof.
  split.
  - exact (@build_commands_in_order sample_externals broken_source_env "sample/iface"
             sample_symbols ∅ "gomock_reflect_1"
             answer_dir
             ({["gomock_reflect_1/prog.go"]} ∪ ({["gomock_reflect_1"]} ∪ ∅))
             answer_suffix
             ({["gomock_reflect_1/prog.go"]} ∪ ({["gomock_reflect_1"]} ∪ ∅))
             (Finished "prog.go:12: undefined" 2)
             ({["/project/bin/gomock_reflect_1.exe"]} ∪
              ({["gomock_reflect_1/prog.go"]} ∪ ({["gomock_reflect_1"]} ∪ ∅)))
             eq_refl eq_refl eq_refl eq_refl eq_refl eq_refl).
  - exact (@build_commands_in_order sample_externals working_env "sample/iface"
             sample_symbols ∅ "gomock_reflect_1"
             answer_dir
             ({["gomock_reflect_1/prog.go"]} ∪ ({["gomock_reflect_1"]} ∪ ∅))
             answer_suffix
             ({["gomock_reflect_1/prog.go"]} ∪ ({["gomock_reflect_1"]} ∪ ∅))
             (Finished "ok" 0)
             ({["/project/bin/gomock_reflect_1.exe"]} ∪
              ({["gomock_reflect_1/prog.go"]} ∪ ({["gomock_reflect_1"]} ∪ ∅)))
             eq_refl eq_refl eq_refl eq_refl eq_refl eq_refl).
Defined.

(** The directory named with a leading ./ and the file without it. *)
Definition dotted_env : Env :=
  scripted_env (inr "./gomock_reflect_1") None
    answer_dir answer_suffix (Finished "ok" 0) answer_probe.

Lemma workspace_contents_removed_witness :
  @filepath_Join cleaning_externals ["./gomock_reflect_1"; "prog.go"] =
    "gomock_reflect_1/prog.go" /\
  let left :=
    fs (snd (@Reflect cleaning_externals dotted_env "sample/iface" sample_symbols ∅)) in
  (forall p, within "./gomock_reflect_1" p = true -> p ∉ left) /\
  (@filepath_Join cleaning_externals ["./gomock_reflect_1"; "prog.go"] =
     go_Join ["./gomock_reflect_1"; "prog.go"] ->
   @filepath_Join cleaning_externals ["./gomock_reflect_1"; "prog.go"] ∉ left).
Proof.
  split; [reflexivity|].
  exact (@workspace_contents_removed cleaning_externals dotted_env "sample/iface"
           sample_symbols ∅ "./gomock_reflect_1" eq_refl eq_refl eq_refl).
Defined.

Lemma exit_only_when_printing_witness :
  let env := toolchain_env true sample_probe in
  fst (@Reflect sample_externals env "sample/iface" sample_symbols ∅) = Exited 0 /\
  0 = 0 /\ progOnly env = true /\ execOnly env = EmptyString /\
  exists tmpDir, TempDir_result env "." "gomock_reflect_" = inr tmpDir.
Proof.
  split; [reflexivity|].
  exact (@exit_only_when_printing sample_externals (toolchain_env true sample_probe)
           "sample/iface" sample_symbols ∅ 0 eq_refl).
Defined.

Lemma print_only_prints_the_source_witness :
  let r := @Reflect sample_externals (toolchain_env true sample_probe)
             "sample/iface" sample_symbols {["README"]} in
  fst r = Exited 0 /\
  stdout_of (trace (snd r)) = @program_text sample_externals "sample/iface" sample_symbols /\
  commands (trace (snd r)) = [] /\
  fs (snd r) = {["gomock_reflect_1"]} ∪ {["README"]}.
Proof.
  exact (@print_only_prints_the_source sample_externals (toolchain_env true sample_probe)
           "sample/iface" sample_symbols {["README"]} "gomock_reflect_1"
           eq_refl eq_refl eq_refl).
Defined.

Lemma prebuilt_ignores_arguments_witness :
  @Reflect sample_externals (prebuilt_env "./probe" sample_stdout 0)
    "sample/iface" sample_symbols ∅ =
  @Reflect sample_externals (prebuilt_env "./probe" sample_stdout 0)
    "other/package" [] ∅.
Proof.
  exact (@prebuilt_ignores_arguments sample_externals
           (prebuilt_env "./probe" sample_stdout 0)
           "sample/iface" sample_symbols "other/package" [] ∅ ltac:(discriminate)).
Defined.

Lemma unstartable_probe_is_fatal_witness :
  let r := @Reflect sample_externals missing_probe_env "sample/iface" sample_symbols ∅ in
  fst r = Failed (OtherError "no such file or directory") /\
  trace (snd r) = [EvRun ["./probe"]].
Proof.
  exact (@unstartable_probe_is_fatal sample_externals missing_probe_env
           "sample/iface" sample_symbols ∅ "./probe" (mkFrame ∅ [] [])
           (OtherError "no such file or directory") ∅ eq_refl eq_refl).
Defined.

Lemma sentinel_line_reaches_decoder_witness :
  has_sentinel_line sample_stdout = true /\
  exists diag payload,
    sample_stdout = unlines diag +:+ sentinel_line +:+ payload /\
    forallb diagnostic_line diag = true /\
    let r := @Reflect sample_externals (prebuilt_env "./probe" sample_stdout 0)
               "sample/iface" sample_symbols ∅ in
    fst r = outcome_of (@gob_Decode sample_externals payload) /\
    trace (snd r) =
      [EvRun ["./probe"]; EvScan sample_stdout; EvGobDecode payload].
Proof.
  split; [reflexivity|].
  exact (@sentinel_line_reaches_decoder sample_externals
           (prebuilt_env "./probe" sample_stdout 0) "sample/iface" sample_symbols ∅
           "./probe" (mkFrame ∅ [] []) sample_stdout ∅ eq_refl eq_refl eq_refl).
Defined.

Lemma probe_output_reaches_decoder_witness :
  let pkg := mkPackage "iface"
               [mkInterface "Fooer" ["Do"]; mkInterface "Barer" ["Do"]] in
  @probe_package strict_externals "sample/iface" sample_symbols = inr pkg /\
  @probe_main strict_externals "sample/iface" sample_symbols =
    (str nl +:+ sentinel_line +:+ "iface", 0) /\
  forall fr,
    @decode strict_externals
      (fst (@probe_main strict_externals "sample/iface" sample_symbols)) fr =
    (Returned (mkPackage "iface" []),
     log (EvGobDecode "iface")
       (log (EvScan (fst (@probe_main strict_externals "sample/iface" sample_symbols))) fr)).
Proof.
  split; [reflexivity|]. split; [reflexivity|].
  exact (proj2 (@probe_output_reaches_decoder strict_externals "sample/iface"
                  sample_symbols _ "iface" eq_refl eq_refl)).
Defined.

(** The types report the names iface.Fooer and iface.Barer; the interfaces of
    the package are named Fooer and Barer. *)
Lemma probe_interfaces_follow_symbols_witness :
  @InterfaceFromInterfaceType strict_externals "Fooer" =
    inr (mkInterface "iface.Fooer" ["Do"]) /\
  exists pkg,
    @probe_package strict_externals "sample/iface" sample_symbols = inr pkg /\
    map Intf_Name (Pkg_Interfaces pkg) = sample_symbols.
Proof.
  split; [reflexivity|].
  eexists. split; [reflexivity|].
  exact (proj1 (@probe_interfaces_follow_symbols strict_externals "sample/iface"
                  sample_symbols _ eq_refl)).
Defined.

(** A request for Fooer, Missing and Barer: the probe stops at Missing. *)
Example probe_rejects_missing_symbol :
  @probe_package strict_externals "sample/iface" ["Fooer"; "Missing"; "Barer"] =
    inl (OtherError "Missing is not an interface") /\
  @probe_main strict_externals "sample/iface" ["Fooer"; "Missing"; "Barer"] =
    (EmptyString, 1).
Proof. split; reflexivity. Qed.
